(** * A shallow embedding of the bookshelf service (src/main.py)

    The service keeps its whole collection of books in the file
    [books.json]: every request loads it with [json.load], and every
    mutation rewrites it with [json.dump(books, file, indent=4)].  The
    model follows the code down to that level: a Python [str] is a list
    of code points, a JSON document is the [json] tree below, the file is
    a list of bytes decoded as UTF-8, and each request is a function in a
    small state-and-exception monad over the file and an I/O log. *)

From Stdlib Require Import ZArith List Bool Lia String Ascii.
From Stdlib Require Import Strings.Byte.
Import ListNotations.
Open Scope Z_scope.

(** ** Python strings and JSON values *)

(** A Python [str]: a sequence of Unicode code points. *)
Definition pystr := list Z.

(** String literals of the source, written in ASCII. *)
Definition py (s : string) : pystr :=
  map (fun a => Z.of_nat (nat_of_ascii a)) (list_ascii_of_string s).

Set Warnings "-register-all".

(** The values [json.load] builds and [json.dump] prints.  A number keeps
    the text it was read from: the program never computes with one. *)
Inductive json : Type :=
| JNull
| JBool (b : bool)
| JNum (lexeme : pystr)
| JStr (s : pystr)
| JArr (items : list json)
| JObj (fields : list (pystr * json)).

Section json_rect_nested.
  Variable P : json -> Prop.
  Hypothesis HNull : P JNull.
  Hypothesis HBool : forall b, P (JBool b).
  Hypothesis HNum : forall t, P (JNum t).
  Hypothesis HStr : forall s, P (JStr s).
  Hypothesis HArr : forall l, Forall P l -> P (JArr l).
  Hypothesis HObj : forall kvs, Forall (fun kv => P (snd kv)) kvs -> P (JObj kvs).

Fixpoint json_ind' (v : json) : P v :=
    match v with
    | JNull => HNull
    | JBool b => HBool b
    | JNum t => HNum t
    | JStr s => HStr s
    | JArr l =>
        HArr l ((fix go (l : list json) : Forall P l :=
                   match l with
                   | [] => Forall_nil _
                   | x :: l' => Forall_cons _ (json_ind' x) (go l')
                   end) l)
    | JObj kvs =>
        HObj kvs ((fix go (kvs : list (pystr * json))
                     : Forall (fun kv => P (snd kv)) kvs :=
                     match kvs with
                     | [] => Forall_nil _
                     | kv :: kvs' => Forall_cons _ (json_ind' (snd kv)) (go kvs')
                     end) kvs)
    end.
End json_rect_nested.

Definition pystr_eqb (a b : pystr) : bool :=
  if list_eq_dec Z.eq_dec a b then true else false.

(** Python dict lookup on an association list with distinct keys. *)
Fixpoint dict_lookup (kvs : list (pystr * json)) (k : pystr) : option json :=
  match kvs with
  | [] => None
  | (k', v) :: kvs' => if pystr_eqb k' k then Some v else dict_lookup kvs' k
  end.

(** [d[k] = v]: an existing key keeps its position, a new key goes last. *)
Fixpoint dict_setitem (kvs : list (pystr * json)) (k : pystr) (v : json)
  : list (pystr * json) :=
  match kvs with
  | [] => [(k, v)]
  | (k', v') :: kvs' =>
      if pystr_eqb k' k then (k', v) :: kvs' else (k', v') :: dict_setitem kvs' k v
  end.

(** ** [json.dump(obj, fp, indent=4)] (ensure_ascii is on by default) *)

Definition hex_digit (n : Z) : Z := if n <? 10 then 48 + n else 87 + n.

(** ['\\u{0:04x}'.format(n)] *)
Definition u_escape (n : Z) : pystr :=
  [92; 117;
   hex_digit (Z.land (Z.shiftr n 12) 15); hex_digit (Z.land (Z.shiftr n 8) 15);
   hex_digit (Z.land (Z.shiftr n 4) 15); hex_digit (Z.land n 15)].

(** One code point as [encode_basestring_ascii] writes it. *)
Definition escape_char (c : Z) : pystr :=
  if c =? 92 then [92; 92]
  else if c =? 34 then [92; 34]
  else if c =? 8 then [92; 98]
  else if c =? 12 then [92; 102]
  else if c =? 10 then [92; 110]
  else if c =? 13 then [92; 114]
  else if c =? 9 then [92; 116]
  else if (32 <=? c) && (c <=? 126) then [c]
  else if c <? 65536 then u_escape c
  else
    let n := c - 65536 in
    u_escape (Z.lor 55296 (Z.land (Z.shiftr n 10) 1023))
      ++ u_escape (Z.lor 56320 (Z.land n 1023)).

Definition encode_basestring_ascii (s : pystr) : pystr :=
  34 :: flat_map escape_char s ++ [34].

(** ['\n' + ' ' * 4 * level] *)
Definition newline_indent (lvl : nat) : pystr := 10 :: repeat 32 (4 * lvl)%nat.

(** [_iterencode] at indentation level [lvl]. A number is written as the
    text it was read from; [json.dump] writes [int.__repr__] or
    [float.__repr__] of the parsed value instead, which is the same text
    only when the lexeme is already in that form ([1.50] becomes [1.5],
    [1E5] becomes [100000.0], [-0] becomes [0]): the results below that
    state the bytes of the file are stated for values without numbers. *)
Fixpoint iterencode (lvl : nat) (v : json) : pystr :=
  match v with
  | JNull => py "null"
  | JBool true => py "true"
  | JBool false => py "false"
  | JNum t => t
  | JStr s => encode_basestring_ascii s
  | JArr [] => py "[]"
  | JArr (x :: xs) =>
      91 :: newline_indent (S lvl) ++ iterencode (S lvl) x
         ++ (fix items (l : list json) : pystr :=
               match l with
               | [] => []
               | y :: l' => 44 :: newline_indent (S lvl) ++ iterencode (S lvl) y ++ items l'
               end) xs
         ++ newline_indent lvl ++ [93]
  | JObj [] => py "{}"
  | JObj ((k, x) :: kvs) =>
      123 :: newline_indent (S lvl) ++ encode_basestring_ascii k ++ [58; 32]
          ++ iterencode (S lvl) x
          ++ (fix members (l : list (pystr * json)) : pystr :=
                match l with
                | [] => []
                | (k', y) :: l' =>
                    44 :: newline_indent (S lvl) ++ encode_basestring_ascii k' ++ [58; 32]
                       ++ iterencode (S lvl) y ++ members l'
                end) kvs
          ++ newline_indent lvl ++ [125]
  end.

Definition json_dump (v : json) : pystr := iterencode 0 v.

(** ** [json.loads] (the C scanner of CPython's [_json] module, strict mode) *)

Definition is_ws (c : Z) : bool := (c =? 32) || (c =? 9) || (c =? 10) || (c =? 13).

Fixpoint skip_ws (s : pystr) : pystr :=
  match s with
  | c :: r => if is_ws c then skip_ws r else s
  | [] => []
  end.

Definition is_digit (c : Z) : bool := (48 <=? c) && (c <=? 57).

Definition hex_val (c : Z) : option Z :=
  if is_digit c then Some (c - 48)
  else if (97 <=? c) && (c <=? 102) then Some (c - 87)
  else if (65 <=? c) && (c <=? 70) then Some (c - 55)
  else None.

(** Four hexadecimal digits of a [\uXXXX] escape. *)
Definition hex4 (a b c d : Z) : option Z :=
  match hex_val a, hex_val b, hex_val c, hex_val d with
  | Some x, Some y, Some z, Some w => Some (x * 4096 + y * 256 + z * 16 + w)
  | _, _, _, _ => None
  end.

Definition is_high_surrogate (u : Z) : bool := (55296 <=? u) && (u <=? 56319).
Definition is_low_surrogate (u : Z) : bool := (56320 <=? u) && (u <=? 57343).

(** [Py_UNICODE_JOIN_SURROGATES] *)
Definition join_surrogates (hi lo : Z) : Z :=
  Z.lor (Z.shiftl (Z.land hi 1023) 10) (Z.land lo 1023) + 65536.

(** The character a one-letter escape stands for. *)
Definition simple_escape (e : Z) : option Z :=
  if e =? 34 then Some 34
  else if e =? 92 then Some 92
  else if e =? 47 then Some 47
  else if e =? 98 then Some 8
  else if e =? 102 then Some 12
  else if e =? 110 then Some 10
  else if e =? 114 then Some 13
  else if e =? 116 then Some 9
  else None.

Definition cons_str (c : Z) (o : option (pystr * pystr)) : option (pystr * pystr) :=
  match o with
  | Some (t, r) => Some (c :: t, r)
  | None => None
  end.

(** [scanstring]: the body of a string literal, after its opening quote;
    returns the string and the text after the closing quote.  A high
    surrogate escape directly followed by a low surrogate escape is joined
    into one code point. *)
Fixpoint scanstring (s : pystr) : option (pystr * pystr) :=
  match s with
  | [] => None
  | c :: r =>
      if c =? 34 then Some ([], r)
      else if c =? 92 then
        match r with
        | [] => None
        | e :: r1 =>
            if e =? 117 then
              match r1 with
              | a :: b :: c' :: d :: r2 =>
                  match hex4 a b c' d with
                  | None => None
                  | Some u =>
                      if is_high_surrogate u then
                        match r2 with
                        | bs :: uu :: a2 :: b2 :: c2 :: d2 :: r3 =>
                            if (bs =? 92) && (uu =? 117) then
                              match hex4 a2 b2 c2 d2 with
                              | None => None
                              | Some u2 =>
                                  if is_low_surrogate u2
                                  then cons_str (join_surrogates u u2) (scanstring r3)
                                  else cons_str u (scanstring r2)
                              end
                            else cons_str u (scanstring r2)
                        | _ => cons_str u (scanstring r2)
                        end
                      else cons_str u (scanstring r2)
                  end
              | _ => None
              end
            else
              match simple_escape e with
              | Some x => cons_str x (scanstring r1)
              | None => None
              end
        end
      else if c <? 32 then None
      else cons_str c (scanstring r)
  end.

(** The longest run of decimal digits. *)
Fixpoint take_digits (s : pystr) : pystr * pystr :=
  match s with
  | c :: r =>
      if is_digit c then let (ds, r') := take_digits r in (c :: ds, r') else ([], s)
  | [] => ([], [])
  end.

(** [_match_number_unicode], in its four stages. *)
Definition scan_sign (s : pystr) : pystr * pystr :=
  match s with
  | c :: r => if c =? 45 then ([c], r) else ([], s)
  | [] => ([], [])
  end.

Definition scan_int (s : pystr) : option (pystr * pystr) :=
  match s with
  | c :: r =>
      if (49 <=? c) && (c <=? 57) then let (ds, r') := take_digits r in Some (c :: ds, r')
      else if c =? 48 then Some ([c], r)
      else None
  | [] => None
  end.

Definition scan_frac (s : pystr) : pystr * pystr :=
  match s with
  | c :: d :: r =>
      if (c =? 46) && is_digit d then let (ds, r') := take_digits r in (c :: d :: ds, r')
      else ([], s)
  | _ => ([], s)
  end.

Definition scan_exp (s : pystr) : pystr * pystr :=
  match s with
  | c :: r =>
      if (c =? 101) || (c =? 69) then
        let (sg, r1) := match r with
                        | d :: r0 => if (d =? 43) || (d =? 45) then ([d], r0) else ([], r)
                        | [] => ([], [])
                        end in
        match take_digits r1 with
        | ([], _) => ([], s)
        | (ds, r2) => (c :: sg ++ ds, r2)
        end
      else ([], s)
  | [] => ([], [])
  end.

Definition match_number (s : pystr) : option (pystr * pystr) :=
  let (sg, s1) := scan_sign s in
  match scan_int s1 with
  | None => None
  | Some (ip, s2) =>
      let (fp, s3) := scan_frac s2 in
      let (ep, s4) := scan_exp s3 in
      Some (sg ++ ip ++ fp ++ ep, s4)
  end.

Fixpoint strip_prefix (p s : pystr) : option pystr :=
  match p, s with
  | [], _ => Some s
  | a :: p', b :: s' => if a =? b then strip_prefix p' s' else None
  | _ :: _, [] => None
  end.

(** [scan_once] and the object and array parsers it calls.  Every call
    spends one unit of [fuel]; [json_loads] gives one more than twice the length of its
    input, enough for the text [json_dump] writes (see [json_loads_dump]). *)
Fixpoint scan_once (fuel : nat) (s : pystr) {struct fuel} : option (json * pystr) :=
  match fuel with
  | O => None
  | S f =>
      match s with
      | [] => None
      | c :: r =>
          if c =? 34 then
            match scanstring r with
            | Some (t, r') => Some (JStr t, r')
            | None => None
            end
          else if c =? 123 then
            match skip_ws r with
            | c' :: r' => if c' =? 125 then Some (JObj [], r') else parse_object f [] (c' :: r')
            | [] => None
            end
          else if c =? 91 then
            match skip_ws r with
            | c' :: r' => if c' =? 93 then Some (JArr [], r') else parse_array f [] (c' :: r')
            | [] => None
            end
          else
            match strip_prefix (py "null") s with Some r' => Some (JNull, r') | None =>
            match strip_prefix (py "true") s with Some r' => Some (JBool true, r') | None =>
            match strip_prefix (py "false") s with Some r' => Some (JBool false, r') | None =>
            match strip_prefix (py "NaN") s with Some r' => Some (JNum (py "NaN"), r') | None =>
            match strip_prefix (py "Infinity") s with
            | Some r' => Some (JNum (py "Infinity"), r')
            | None =>
            match strip_prefix (py "-Infinity") s with
            | Some r' => Some (JNum (py "-Infinity"), r')
            | None =>
                match match_number s with
                | Some (t, r') => Some (JNum t, r')
                | None => None
                end
            end end end end end end
      end
  end
(** The members of an object, after ["{"] and the blanks that follow it. *)
with parse_object (fuel : nat) (acc : list (pystr * json)) (s : pystr) {struct fuel}
  : option (json * pystr) :=
  match fuel with
  | O => None
  | S f =>
      match s with
      | c :: r =>
          if c =? 34 then
            match scanstring r with
            | None => None
            | Some (k, r1) =>
                match skip_ws r1 with
                | c1 :: r2 =>
                    if c1 =? 58 then
                      match scan_once f (skip_ws r2) with
                      | None => None
                      | Some (v, r3) =>
                          let acc' := dict_setitem acc k v in
                          match skip_ws r3 with
                          | c3 :: r4 =>
                              if c3 =? 125 then Some (JObj acc', r4)
                              else if c3 =? 44 then parse_object f acc' (skip_ws r4)
                              else None
                          | [] => None
                          end
                      end
                    else None
                | [] => None
                end
            end
          else None
      | [] => None
      end
  end
(** The items of an array, after ["["] and the blanks that follow it. *)
with parse_array (fuel : nat) (acc : list json) (s : pystr) {struct fuel}
  : option (json * pystr) :=
  match fuel with
  | O => None
  | S f =>
      match scan_once f s with
      | None => None
      | Some (v, r) =>
          match skip_ws r with
          | c :: r' =>
              if c =? 93 then Some (JArr (acc ++ [v]), r')
              else if c =? 44 then parse_array f (acc ++ [v]) (skip_ws r')
              else None
          | [] => None
          end
      end
  end.

(** [json.loads(s)]: [None] is a [JSONDecodeError]. *)
Definition json_loads (s : pystr) : option json :=
  match s with
  | c :: _ => if c =? 65279 then None else
      match scan_once (S (2 * List.length s)) (skip_ws s) with
      | Some (v, r) => match skip_ws r with [] => Some v | _ => None end
      | None => None
      end
  | [] => None
  end.

(** ** The file's bytes *)

Definition bz (b : byte) : Z := Z.of_N (Byte.to_N b).

Definition is_cont (x : Z) : bool := (128 <=? x) && (x <=? 191).

Definition cons_cp (c : Z) (o : option pystr) : option pystr :=
  match o with Some t => Some (c :: t) | None => None end.

(** Strict UTF-8 decoding, the locale encoding [open(BOOKS_FILE, "r")]
    reads with: [None] is a [UnicodeDecodeError]. *)
Fixpoint utf8_decode (bs : list byte) : option pystr :=
  match bs with
  | [] => Some []
  | b0 :: r0 =>
      let x0 := bz b0 in
      if x0 <? 128 then cons_cp x0 (utf8_decode r0)
      else if (194 <=? x0) && (x0 <=? 223) then
        match r0 with
        | b1 :: r1 =>
            if is_cont (bz b1)
            then cons_cp (Z.lor (Z.shiftl (Z.land x0 31) 6) (Z.land (bz b1) 63)) (utf8_decode r1)
            else None
        | [] => None
        end
      else if (224 <=? x0) && (x0 <=? 239) then
        match r0 with
        | b1 :: b2 :: r2 =>
            let cp := Z.lor (Z.shiftl (Z.land x0 15) 12)
                        (Z.lor (Z.shiftl (Z.land (bz b1) 63) 6) (Z.land (bz b2) 63)) in
            if is_cont (bz b1) && is_cont (bz b2) && (2048 <=? cp)
               && negb ((55296 <=? cp) && (cp <=? 57343))
            then cons_cp cp (utf8_decode r2) else None
        | _ => None
        end
      else if (240 <=? x0) && (x0 <=? 244) then
        match r0 with
        | b1 :: b2 :: b3 :: r3 =>
            let cp := Z.lor (Z.shiftl (Z.land x0 7) 18)
                        (Z.lor (Z.shiftl (Z.land (bz b1) 63) 12)
                           (Z.lor (Z.shiftl (Z.land (bz b2) 63) 6) (Z.land (bz b3) 63))) in
            if is_cont (bz b1) && is_cont (bz b2) && is_cont (bz b3)
               && (65536 <=? cp) && (cp <=? 1114111)
            then cons_cp cp (utf8_decode r3) else None
        | _ => None
        end
      else None
  end.

(** Universal newlines of a file opened in text mode. *)
Fixpoint translate_newlines (s : pystr) : pystr :=
  match s with
  | c :: r =>
      if c =? 13 then
        match r with
        | d :: r' => if d =? 10 then 10 :: translate_newlines r' else 10 :: translate_newlines r
        | [] => [10]
        end
      else c :: translate_newlines r
  | [] => []
  end.

Definition byte_of (x : Z) : byte :=
  match Byte.of_N (Z.to_N x) with Some b => b | None => x00 end.

(** Strict UTF-8 encoding, used by [open(BOOKS_FILE, "w")]: [None] is a
    [UnicodeEncodeError] (a surrogate code point). *)
Fixpoint utf8_encode (s : pystr) : option (list byte) :=
  match s with
  | [] => Some []
  | c :: r =>
      let bytes :=
        if c <? 128 then Some [byte_of c]
        else if c <? 2048 then
          Some [byte_of (Z.lor 192 (Z.shiftr c 6)); byte_of (Z.lor 128 (Z.land c 63))]
        else if (55296 <=? c) && (c <=? 57343) then None
        else if c <? 65536 then
          Some [byte_of (Z.lor 224 (Z.shiftr c 12));
                byte_of (Z.lor 128 (Z.land (Z.shiftr c 6) 63));
                byte_of (Z.lor 128 (Z.land c 63))]
        else
          Some [byte_of (Z.lor 240 (Z.shiftr c 18));
                byte_of (Z.lor 128 (Z.land (Z.shiftr c 12) 63));
                byte_of (Z.lor 128 (Z.land (Z.shiftr c 6) 63));
                byte_of (Z.lor 128 (Z.land c 63))] in
      match bytes, utf8_encode r with
      | Some b, Some t => Some (b ++ t)
      | _, _ => None
      end
  end.

(** ** Exceptions, the world, and the request monad *)

Inductive exn : Type :=
| HTTPException (status_code : Z) (detail : pystr)
| KeyError (key : json)
| TypeError
| AttributeError
| UnicodeDecodeError
| UnicodeEncodeError
| JSONDecodeError  (** [response.json()] on a body that is not JSON *)
| HTTPError.   (** anything [httpx.get] raises: connection failure, timeout *)

Inductive outcome (A : Type) : Type :=
| Ok (a : A)
| Raise (e : exn).
Arguments Ok {A} a.
Arguments Raise {A} e.

Definition obind {A B} (m : outcome A) (k : A -> outcome B) : outcome B :=
  match m with Ok a => k a | Raise e => Raise e end.
Notation "x <-? m ;; k" := (obind m (fun x => k)) (at level 61, m at next level, right associativity).

(** The I/O a request performs, in order. *)
Inductive io_event : Type :=
| EvOpenRead                    (** [open(BOOKS_FILE, "r")] *)
| EvWrite (contents : list byte) (** [open(BOOKS_FILE, "w")] and [json.dump] *)
| EvHttpGet (url : pystr).       (** [httpx.get(url)] *)

(** [books_file] is [None] when [books.json] does not exist. *)
Record world : Type := mk_world {
  books_file : option (list byte);
  io_log : list io_event
}.

Definition M (A : Type) : Type := world -> outcome A * world.

Definition ret {A} (a : A) : M A := fun w => (Ok a, w).
Definition raise {A} (e : exn) : M A := fun w => (Raise e, w).
Definition bind {A B} (m : M A) (k : A -> M B) : M B :=
  fun w => match m w with
           | (Ok a, w') => k a w'
           | (Raise e, w') => (Raise e, w')
           end.
Definition lift {A} (o : outcome A) : M A := fun w => (o, w).
Notation "x <- m ;; k" := (bind m (fun x => k)) (at level 61, m at next level, right associativity).

Definition log_event (ev : io_event) (w : world) : world :=
  {| books_file := books_file w; io_log := io_log w ++ [ev] |}.

(** ** The Store: [load_books] and [save_books] *)

(** [json.load] on the text of the file; a missing file and a
    [JSONDecodeError] give [[]], a [UnicodeDecodeError] propagates. *)
Definition load_books : M json :=
  fun w =>
    let w' := log_event EvOpenRead w in
    match books_file w with
    | None => (Ok (JArr []), w')
    | Some bytes =>
        match utf8_decode bytes with
        | None => (Raise UnicodeDecodeError, w')
        | Some text =>
            match json_loads (translate_newlines text) with
            | None => (Ok (JArr []), w')
            | Some v => (Ok v, w')
            end
        end
    end.

(** [open(BOOKS_FILE, "w")] truncates the file, then [json.dump] writes
    the text of [books]. *)
Definition save_books (books : json) : M unit :=
  fun w =>
    match utf8_encode (json_dump books) with
    | Some bytes =>
        (Ok tt, {| books_file := Some bytes; io_log := io_log w ++ [EvWrite bytes] |})
    | None =>
        (Raise UnicodeEncodeError, {| books_file := Some []; io_log := io_log w ++ [EvWrite []] |})
    end.

(** ** The Python operations the handlers apply to loaded values *)

(** [v[k]] with a [str] key. *)
Definition py_getitem (v : json) (k : pystr) : outcome json :=
  match v with
  | JObj kvs => match dict_lookup kvs k with Some x => Ok x | None => Raise (KeyError (JStr k)) end
  | _ => Raise TypeError
  end.

(** [for x in v]: a dict yields its keys, a str its characters. *)
Definition py_iter (v : json) : outcome (list json) :=
  match v with
  | JArr l => Ok l
  | JObj kvs => Ok (map (fun kv => JStr (fst kv)) kvs)
  | JStr s => Ok (map (fun c => JStr [c]) s)
  | _ => Raise TypeError
  end.

(** [x == s] for a [str] [s]. *)
Definition py_str_eq (x : json) (s : pystr) : bool :=
  match x with JStr t => pystr_eqb t s | _ => false end.

Fixpoint is_prefix (p s : pystr) : bool :=
  match p, s with
  | [], _ => true
  | a :: p', b :: s' => (a =? b) && is_prefix p' s'
  | _ :: _, [] => false
  end.

(** [needle in hay] for two [str]s. *)
Fixpoint str_contains (needle hay : pystr) : bool :=
  is_prefix needle hay || match hay with [] => false | _ :: h => str_contains needle h end.

(** [s in v] for a [str] [s]. *)
Definition py_contains (v : json) (s : pystr) : outcome bool :=
  match v with
  | JObj kvs => Ok (match dict_lookup kvs s with Some _ => true | None => false end)
  | JArr l => Ok (existsb (fun x => py_str_eq x s) l)
  | JStr t => Ok (str_contains s t)
  | _ => Raise TypeError
  end.

Definition py_len (v : json) : outcome Z :=
  match v with
  | JArr l => Ok (Z.of_nat (List.length l))
  | JObj kvs => Ok (Z.of_nat (List.length kvs))
  | JStr s => Ok (Z.of_nat (List.length s))
  | _ => Raise TypeError
  end.

(** [v[0]]. *)
Definition py_first (v : json) : outcome json :=
  match v with
  | JArr (x :: _) => Ok x
  | JStr (c :: _) => Ok (JStr [c])
  | JObj _ => Raise (KeyError (JNum (py "0")))
  | JArr [] | JStr [] => Raise TypeError (* IndexError, unreachable after the length test *)
  | _ => Raise TypeError
  end.

(** [v.get(k, default)]. *)
Definition py_dict_get (v : json) (k : pystr) (default : json) : outcome json :=
  match v with
  | JObj kvs => Ok (match dict_lookup kvs k with Some x => x | None => default end)
  | _ => Raise AttributeError
  end.

Fixpoint join_strs (sep : pystr) (l : list pystr) : pystr :=
  match l with
  | [] => []
  | [s] => s
  | s :: l' => s ++ sep ++ join_strs sep l'
  end.

(** The items of an iterable passed to [str.join], which must be [str]s. *)
Fixpoint join_items (l : list json) : outcome (list pystr) :=
  match l with
  | [] => Ok []
  | JStr s :: l' => r <-? join_items l' ;; Ok (s :: r)
  | _ :: _ => Raise TypeError
  end.

(** [sep.join(v)] *)
Definition py_join (sep : pystr) (v : json) : outcome pystr :=
  xs <-? py_iter v ;;
  ss <-? join_items xs ;;
  Ok (join_strs sep ss).

(** [str.lower] on a code point of Basic Latin: A-Z go up by 32. *)
Definition ascii_lower (c : Z) : Z :=
  if (65 <=? c) && (c <=? 90) then c + 32 else c.

Definition is_ascii_cp (c : Z) : bool := (0 <=? c) && (c <? 128).

(** A case mapping for the strings with a non-ASCII code point, for the
    examples at concrete inputs, whose strings are all ASCII. *)
Definition identity_lower (s : pystr) : pystr := s.

(** Closes [Forall P l] for a concrete [l] when [P] asks for a value the
    getter computes. *)
Ltac forall_fields :=
  repeat (apply Forall_cons; [eexists; reflexivity|]); apply Forall_nil.

Section lowercase.

(** [str.lower] of a string holding a code point outside ASCII: Python
    applies the full Unicode case mapping of the tables it was built with
    (a code point may become several, and Greek capital sigma depends on
    its neighbours), which this development does not model: the
    definitions from here on take it as a parameter, and every result
    holds for any such function. *)
Variable unicode_lower : pystr -> pystr.

(** [s.lower()]: on an ASCII string Python maps A-Z to a-z and keeps the
    other code points. *)
Definition str_lower (s : pystr) : pystr :=
  if forallb is_ascii_cp s then map ascii_lower s else unicode_lower s.

Definition py_lower (v : json) : outcome pystr :=
  match v with JStr s => Ok (str_lower s) | _ => Raise AttributeError end.

(** Truth value of a number, from its text: zero unless a digit of the
    mantissa is non-zero; [NaN] and the infinities are true. *)
Fixpoint mantissa_nonzero (t : pystr) : bool :=
  match t with
  | [] => false
  | c :: r =>
      if (c =? 101) || (c =? 69) then false
      else ((49 <=? c) && (c <=? 57)) || mantissa_nonzero r
  end.

(** [not v] *)
Definition py_not (v : json) : bool :=
  negb match v with
       | JNull => false
       | JBool b => b
       | JNum t => if existsb is_digit t then mantissa_nonzero t else true
       | JStr s => match s with [] => false | _ => true end
       | JArr l => match l with [] => false | _ => true end
       | JObj kvs => match kvs with [] => false | _ => true end
       end.

(** [dict[k] = v] on a dict. *)
Definition py_setitem (v : json) (k : pystr) (x : json) : outcome json :=
  match v with JObj kvs => Ok (JObj (dict_setitem kvs k x)) | _ => Raise TypeError end.

(** [books.append(x)] *)
Definition py_append (v x : json) : outcome json :=
  match v with JArr l => Ok (JArr (l ++ [x])) | _ => Raise AttributeError end.

(** [books[i] = x], [i] a valid index. *)
Definition py_setindex (v : json) (i : nat) (x : json) : outcome json :=
  match v with
  | JArr l => Ok (JArr (firstn i l ++ x :: skipn (S i) l))
  | _ => Raise TypeError
  end.

(** [books.remove(book)] where [book] is the item found at index [i] by
    the loop: an earlier item equal to it would have the same isbn and
    would have been found first, so the item removed is the one at [i]. *)
Definition py_remove_at (v : json) (i : nat) : outcome json :=
  match v with
  | JArr l => Ok (JArr (firstn i l ++ skipn (S i) l))
  | _ => Raise AttributeError
  end.

(** ** The Catalog Lookup Client *)

Record http_response : Type := mk_response {
  status_code : Z;
  json_body : option json  (** [None]: the body is not JSON *)
}.

(** The upstream service: the response to a GET of a URL, or [None] when
    [httpx.get] raises. *)
Definition upstream : Type := pystr -> option http_response.

Definition google_url (isbn : pystr) : pystr :=
  py "https://www.googleapis.com/books/v1/volumes?q=isbn:" ++ isbn.

(** The body of [fetch_google_book] after [data = response.json()]. *)
Definition book_from_data (isbn : pystr) (data : json) : outcome json :=
  has_items <-? py_contains data (py "items") ;;
  found <-? (if has_items then
               items <-? py_getitem data (py "items") ;;
               n <-? py_len items ;;
               Ok (0 <? n)
             else Ok false) ;;
  if found then
    items <-? py_getitem data (py "items") ;;
    item <-? py_first items ;;
    volume_info <-? py_getitem item (py "volumeInfo") ;;
    title <-? py_dict_get volume_info (py "title") (JStr (py "Unknown")) ;;
    authors <-? py_dict_get volume_info (py "authors") (JArr [JStr (py "Unknown")]) ;;
    author <-? py_join (py ", ") authors ;;
    description <-? py_dict_get volume_info (py "description")
                      (JStr (py "No description available")) ;;
    Ok (JObj [(py "title", title); (py "author", JStr author); (py "isbn", JStr isbn);
              (py "description", description); (py "is_read", JBool false)])
  else Raise (HTTPException 404 (py "Book not found in external API")).

Definition fetch_google_book (net : upstream) (isbn : pystr) : M json :=
  fun w =>
    let url := google_url isbn in
    let w' := log_event (EvHttpGet url) w in
    match net url with
    | None => (Raise HTTPError, w')
    | Some response =>
        if status_code response =? 200 then
          match json_body response with
          | None => (Raise JSONDecodeError, w')
          | Some data => (book_from_data isbn data, w')
          end
        else (Raise (HTTPException (status_code response) (py "Failed to fetch book details")), w')
    end.

(** ** The request handlers *)

(** The [Book] model: [description] and [is_read] may be [None]. *)
Record Book : Type := mk_book {
  title : pystr;
  author : pystr;
  isbn : pystr;
  description : option pystr;
  is_read : option bool
}.

Definition model_dump (b : Book) : json :=
  JObj [(py "title", JStr b.(title)); (py "author", JStr b.(author));
        (py "isbn", JStr b.(isbn));
        (py "description", match b.(description) with Some d => JStr d | None => JNull end);
        (py "is_read", match b.(is_read) with Some r => JBool r | None => JNull end)].

(** [any(b["isbn"] == isbn for b in books)] over the items. *)
Fixpoint any_isbn (l : list json) (isbn : pystr) : outcome bool :=
  match l with
  | [] => Ok false
  | b :: l' =>
      x <-? py_getitem b (py "isbn") ;;
      if py_str_eq x isbn then Ok true else any_isbn l' isbn
  end.

(** [for book in books: if book["isbn"] == isbn: ...]: the index and the
    item the loop stops at. *)
Fixpoint find_isbn (l : list json) (isbn : pystr) (i : nat) : outcome (option (nat * json)) :=
  match l with
  | [] => Ok None
  | b :: l' =>
      x <-? py_getitem b (py "isbn") ;;
      if py_str_eq x isbn then Ok (Some (i, b)) else find_isbn l' isbn (S i)
  end.

(** [[book for book in books if q.lower() in book[field].lower()]] *)
Fixpoint filter_field (field q : pystr) (l : list json) : outcome (list json) :=
  match l with
  | [] => Ok []
  | b :: l' =>
      v <-? py_getitem b field ;;
      s <-? py_lower v ;;
      rest <-? filter_field field q l' ;;
      Ok (if str_contains (str_lower q) s then b :: rest else rest)
  end.

Definition duplicate_isbn : exn := HTTPException 400 (py "Book with this ISBN already exists").
Definition book_not_found : exn := HTTPException 404 (py "Book not found").

(** GET /books/search *)
Definition search_book (net : upstream) (isbn : pystr) : M json :=
  fetch_google_book net isbn.

(** POST /books/search *)
Definition search_and_add_book (net : upstream) (isbn : pystr) : M json :=
  book <- fetch_google_book net isbn ;;
  books <- load_books ;;
  dup <- lift (bs <-? py_iter books ;; any_isbn bs isbn) ;;
  if dup then raise duplicate_isbn
  else
    books' <- lift (py_append books book) ;;
    _ <- save_books books' ;;
    ret book.

(** GET /books *)
Definition get_books : M json :=
  books <- load_books ;; ret books.

(** GET /books/{isbn} *)
Definition get_book (isbn : pystr) : M json :=
  books <- load_books ;;
  found <- lift (bs <-? py_iter books ;; find_isbn bs isbn 0) ;;
  match found with
  | Some (_, book) => ret book
  | None => raise book_not_found
  end.

(** GET /books/author/{author} *)
Definition get_books_by_author (author : pystr) : M json :=
  books <- load_books ;;
  result <- lift (bs <-? py_iter books ;; filter_field (py "author") author bs) ;;
  match result with
  | [] => raise (HTTPException 404 (py "No books found for the given author"))
  | _ :: _ => ret (JArr result)
  end.

(** GET /books/title/{title} *)
Definition get_books_by_title (title : pystr) : M json :=
  books <- load_books ;;
  result <- lift (bs <-? py_iter books ;; filter_field (py "title") title bs) ;;
  match result with
  | [] => raise (HTTPException 404 (py "No books found for the given title"))
  | _ :: _ => ret (JArr result)
  end.

(** POST /books *)
Definition add_book (book : Book) : M json :=
  books <- load_books ;;
  dup <- lift (bs <-? py_iter books ;; any_isbn bs book.(isbn)) ;;
  if dup then raise duplicate_isbn
  else
    books' <- lift (py_append books (model_dump book)) ;;
    _ <- save_books books' ;;
    ret (model_dump book).

(** PUT /books/{isbn} *)
Definition update_book (isbn : pystr) (updated_book : Book) : M json :=
  books <- load_books ;;
  found <- lift (bs <-? py_iter books ;; find_isbn bs isbn 0) ;;
  match found with
  | Some (index, _) =>
      books' <- lift (py_setindex books index (model_dump updated_book)) ;;
      _ <- save_books books' ;;
      ret (model_dump updated_book)
  | None => raise book_not_found
  end.

(** DELETE /books/{isbn} *)
Definition delete_book (isbn : pystr) : M json :=
  books <- load_books ;;
  found <- lift (bs <-? py_iter books ;; find_isbn bs isbn 0) ;;
  match found with
  | Some (index, _) =>
      books' <- lift (py_remove_at books index) ;;
      _ <- save_books books' ;;
      ret (JObj [(py "message", JStr (py "Book deleted successfully"))])
  | None => raise book_not_found
  end.

(** PATCH /books/{isbn}/toggle-read: the dict [book] is an item of
    [books], so the assignment changes the list that is saved. *)
Definition toggle_read_status (isbn : pystr) : M json :=
  books <- load_books ;;
  found <- lift (bs <-? py_iter books ;; find_isbn bs isbn 0) ;;
  match found with
  | Some (index, book) =>
      cur <- lift (py_getitem book (py "is_read")) ;;
      book' <- lift (py_setitem book (py "is_read") (JBool (py_not cur))) ;;
      books' <- lift (py_setindex books index book') ;;
      _ <- save_books books' ;;
      ret book'
  | None => raise book_not_found
  end.

Inductive request : Type :=
| SearchBook (isbn : pystr)
| SearchAndAddBook (isbn : pystr)
| GetBooks
| GetBook (isbn : pystr)
| GetBooksByAuthor (author : pystr)
| GetBooksByTitle (title : pystr)
| AddBook (book : Book)
| UpdateBook (isbn : pystr) (updated_book : Book)
| DeleteBook (isbn : pystr)
| ToggleReadStatus (isbn : pystr).

Definition handle (net : upstream) (req : request) : M json :=
  match req with
  | SearchBook i => search_book net i
  | SearchAndAddBook i => search_and_add_book net i
  | GetBooks => get_books
  | GetBook i => get_book i
  | GetBooksByAuthor a => get_books_by_author a
  | GetBooksByTitle t => get_books_by_title t
  | AddBook b => add_book b
  | UpdateBook i b => update_book i b
  | DeleteBook i => delete_book i
  | ToggleReadStatus i => toggle_read_status i
  end.

(** ** Shapes of stored collections *)

(** The stored file holding the text [json.dump] writes for [v]. *)
Definition stored (v : json) : option (list byte) := utf8_encode (json_dump v).

(** An item [b] for which [b["isbn"]] is defined. *)
Definition has_isbn_key (b : json) : Prop := exists x, py_getitem b (py "isbn") = Ok x.

(** An item whose isbn is the [str] [i]. *)
Definition isbn_is (i : pystr) (b : json) : Prop := py_getitem b (py "isbn") = Ok (JStr i).

Definition isbn_matches (i : pystr) (b : json) : bool :=
  match py_getitem b (py "isbn") with Ok x => py_str_eq x i | Raise _ => false end.

(** An item whose field [f] is a [str]. *)
Definition str_field (f : pystr) (b : json) : Prop := exists s, py_getitem b f = Ok (JStr s).

(** "[q] occurs in [s], ignoring case", as [q.lower() in s.lower()]. *)
Definition ci_contains (q s : pystr) : bool := str_contains (str_lower q) (str_lower s).

Definition field_matches (f q : pystr) (b : json) : bool :=
  match py_getitem b f with Ok (JStr s) => ci_contains q s | _ => false end.

(** What a search over field [f] for [q] answers on the items [bs]. *)
Definition search_result (f q detail : pystr) (bs : list json) : outcome json :=
  match filter (field_matches f q) bs with
  | [] => Raise (HTTPException 404 detail)
  | r => Ok (JArr r)
  end.

(** The [author] of the record built from a [volumeInfo] whose [authors]
    key is absent ([None]) or holds the list of names [names]. *)
Definition author_of (authors : option (list pystr)) : pystr :=
  match authors with
  | Some names => join_strs (py ", ") names
  | None => py "Unknown"
  end.

Definition field_or (vi : list (pystr * json)) (k : pystr) (default : json) : json :=
  match dict_lookup vi k with Some x => x | None => default end.

(** The requests whose handler starts by loading the Store. *)
Definition reads_store_first (req : request) : bool :=
  match req with
  | SearchBook _ | SearchAndAddBook _ => false
  | _ => true
  end.

(** ** Sample data *)

Definition sample_book (t a i : string) : Book :=
  mk_book (py t) (py a) (py i) None (Some false).

Definition book_a : Book := sample_book "Dune" "Frank Herbert" "1".
Definition book_b : Book := sample_book "The Hobbit" "J. R. R. Tolkien" "2".
(** [book_a] edited to carry the isbn of [book_b]. *)
Definition book_a2 : Book := sample_book "Dune" "Frank Herbert" "2".

(** A Store written by [save_books] with the given items. *)
Definition store_world (bs : list json) : world := mk_world (stored (JArr bs)) [].

(** A record as the first revision of the service stored them, without [is_read]. *)
Definition first_revision_record : json :=
  JObj [(py "title", JStr (py "Dune")); (py "author", JStr (py "Frank Herbert"));
        (py "isbn", JStr (py "1"))].

(** An upstream that answers every request with [body] and status 200. *)
Definition upstream_ok (body : json) : upstream := fun _ => Some (mk_response 200 (Some body)).

Definition volumes (vi : list (pystr * json)) : json :=
  JObj [(py "items", JArr [JObj [(py "volumeInfo", JObj vi)]])].

(** The record the lookup builds for isbn [i] from a [volumeInfo] holding
    only the title "Dune". *)
Definition dune_record (i : pystr) : json :=
  JObj [(py "title", JStr (py "Dune")); (py "author", JStr (py "Unknown"));
        (py "isbn", JStr i); (py "description", JStr (py "No description available"));
        (py "is_read", JBool false)].

(** ** Well-formed values and the text of the Store *)

(** The two UTF-16 code units [encode_basestring_ascii] writes for a code
    point above the BMP. *)
Definition hi_unit (c : Z) : Z := Z.lor 55296 (Z.land (Z.shiftr (c - 65536) 10) 1023).

Definition lo_unit (c : Z) : Z := Z.lor 56320 (Z.land (c - 65536) 1023).

(** Strings [json.load] gives back unchanged: code points in range, and no
    high surrogate directly followed by a low one (the scanner would join the
    two escapes into one code point). *)
Definition cp_ok (c : Z) : bool := (0 <=? c) && (c <=? 1114111).

Fixpoint str_wf (s : pystr) : bool :=
  match s with
  | [] => true
  | c :: r =>
      cp_ok c
      && negb (is_high_surrogate c && match r with d :: _ => is_low_surrogate d | [] => false end)
      && str_wf r
  end.

(** The text after an escape does not start with the escape of a low surrogate. *)
Definition no_low_escape (r : pystr) : Prop :=
  forall a b c d r' u, r = 92 :: 117 :: a :: b :: c :: d :: r' ->
    hex4 a b c d = Some u -> is_low_surrogate u = false.

(** Characters that can follow a value in the text of [json_dump]. *)
Definition stop_char (z : Z) : bool := (z =? 44) || (z =? 10).

(** Characters of a number lexeme. *)
Definition numchar (c : Z) : bool :=
  is_digit c || (c =? 45) || (c =? 43) || (c =? 46) || (c =? 101) || (c =? 69).

(** A number lexeme that [json.load] reads back as the same lexeme. *)
Definition number_ok (t : pystr) : bool :=
  pystr_eqb t (py "NaN") || pystr_eqb t (py "Infinity") || pystr_eqb t (py "-Infinity")
  || match match_number t with Some (t', []) => pystr_eqb t' t | _ => false end.

(** The keys of a dict are distinct. *)
Fixpoint keys_distinct (kvs : list (pystr * json)) : bool :=
  match kvs with
  | [] => true
  | (k, _) :: r => negb (existsb (fun kv => pystr_eqb (fst kv) k) r) && keys_distinct r
  end.

(** Values [json.dump] writes and [json.load] reads back unchanged. *)
Fixpoint json_wf (v : json) : bool :=
  match v with
  | JNull | JBool _ => true
  | JNum t => number_ok t
  | JStr s => str_wf s
  | JArr l => forallb json_wf l
  | JObj kvs => keys_distinct kvs && forallb (fun kv => str_wf (fst kv) && json_wf (snd kv)) kvs
  end.

(** The fuel [scan_once] spends on a value. *)
Fixpoint jsize (v : json) : nat :=
  match v with
  | JArr l => list_sum (map (fun x => S (S (jsize x))) l)
  | JObj kvs => list_sum (map (fun kv => S (S (jsize (snd kv)))) kvs)
  | _ => O
  end.

(** The [fix] loops of [iterencode], as top-level functions. *)
Fixpoint enc_items (lvl : nat) (l : list json) : pystr :=
  match l with
  | [] => []
  | y :: l' => 44 :: newline_indent lvl ++ iterencode lvl y ++ enc_items lvl l'
  end.

Fixpoint enc_members (lvl : nat) (l : list (pystr * json)) : pystr :=
  match l with
  | [] => []
  | (k, y) :: l' =>
      44 :: newline_indent lvl ++ encode_basestring_ascii k ++ [58; 32]
         ++ iterencode lvl y ++ enc_members lvl l'
  end.

(** What may follow a value in the text [scan_once] reads. *)
Definition delim (r : pystr) : bool := match r with [] => true | z :: _ => stop_char z end.

(** [scan_once] reads the text of [v] back as [v]. *)
Definition scans_back (v : json) : Prop :=
  forall lvl f rest, (jsize v < f)%nat -> delim rest = true ->
    scan_once f (iterencode lvl v ++ rest) = Some (v, rest).

Definition items_size (l : list json) : nat := list_sum (map (fun x => S (S (jsize x))) l).

Definition members_size (kvs : list (pystr * json)) : nat :=
  list_sum (map (fun kv => S (S (jsize (snd kv)))) kvs).

(** The text [json_dump] writes: ASCII, without carriage returns. *)
Definition text_char (c : Z) : bool := (0 <=? c) && (c <? 128) && negb (c =? 13).

Definition ascii_text (s : pystr) : bool := forallb text_char s.

(** ** More sample data *)

(** A title holding a high and a low surrogate as two separate code points,
    and the title holding the single code point they encode. *)
Definition pair_title : pystr := [55357; 56832].

Definition pair_book : Book := mk_book pair_title (py "Anon") (py "9") None (Some false).

Definition joined_book : Book := mk_book [128512] (py "Anon") (py "9") None (Some false).


(** ** Handlers that keep the Store, and values [json.dump] can write *)

(** The requests whose handler only reads: the lookup, the listing and the searches. *)
Definition read_only (req : request) : bool :=
  match req with
  | SearchBook _ | GetBooks | GetBook _ | GetBooksByAuthor _ | GetBooksByTitle _ => true
  | _ => false
  end.

(** A computation that leaves [books.json] as it found it. *)
Definition keeps_store {A} (m : M A) : Prop := forall w, books_file (snd (m w)) = books_file w.

(** Every number of a value is a lexeme [json.dump] writes. *)
Fixpoint nums_ok (v : json) : bool :=
  match v with
  | JNum t => number_ok t
  | JArr l => forallb nums_ok l
  | JObj kvs => forallb (fun kv => nums_ok (snd kv)) kvs
  | _ => true
  end.


(** A title holding the lone surrogate U+D83D. *)
Definition lone_surrogate_book : Book := mk_book [55357] (py "Anon") (py "9") None (Some false).


(** A record without an [author] key. *)
Definition no_author_record : json :=
  JObj [(py "title", JStr (py "Emma")); (py "isbn", JStr (py "7"))].

(** ** Basic facts *)

Lemma pystr_eqb_true (a b : pystr) : pystr_eqb a b = true <-> a = b.
Proof. unfold pystr_eqb. destruct (list_eq_dec Z.eq_dec a b); split; congruence. Qed.

Lemma pystr_eqb_refl (a : pystr) : pystr_eqb a a = true.
Proof. apply pystr_eqb_true; reflexivity. Qed.

Lemma py_str_eq_true (x : json) (s : pystr) : py_str_eq x s = true <-> x = JStr s.
Proof.
  destruct x; simpl; split; intro H; try discriminate.
  - apply pystr_eqb_true in H; congruence.
  - inversion H; subst; apply pystr_eqb_refl.
Qed.

Lemma load_books_world (w : world) : snd (load_books w) = log_event EvOpenRead w.
Proof.
  unfold load_books. destruct (books_file w) as [bytes|]; [|reflexivity].
  destruct (utf8_decode bytes) as [text|]; [|reflexivity].
  destruct (json_loads _); reflexivity.
Qed.

Lemma load_books_same_file (w w' : world) :
  books_file w = books_file w' -> fst (load_books w) = fst (load_books w').
Proof.
  intro H. unfold load_books. rewrite H. destruct (books_file w') as [bytes|]; [|reflexivity].
  destruct (utf8_decode bytes) as [text|]; [|reflexivity].
  destruct (json_loads _); reflexivity.
Qed.

Lemma load_books_ok (w : world) (v : json) :
  fst (load_books w) = Ok v -> load_books w = (Ok v, log_event EvOpenRead w).
Proof.
  intro H. rewrite <- H, <- (load_books_world w). destruct (load_books w); reflexivity.
Qed.

Lemma fetch_google_book_world (net : upstream) (i : pystr) (w : world) :
  snd (fetch_google_book net i w) = log_event (EvHttpGet (google_url i)) w.
Proof.
  unfold fetch_google_book. destruct (net (google_url i)) as [r|]; [|reflexivity].
  destruct (status_code r =? 200); [destruct (json_body r)|]; reflexivity.
Qed.

Lemma isbn_matches_true (i : pystr) (b : json) : isbn_matches i b = true <-> isbn_is i b.
Proof.
  unfold isbn_matches, isbn_is. destruct (py_getitem b (py "isbn")) as [x|e].
  - rewrite py_str_eq_true. split; congruence.
  - split; discriminate.
Qed.

Lemma any_isbn_existsb (bs : list json) (i : pystr) :
  Forall has_isbn_key bs -> any_isbn bs i = Ok (existsb (isbn_matches i) bs).
Proof.
  induction 1 as [|b bs [x Hx] _ IH]; [reflexivity|].
  cbn [any_isbn]. rewrite Hx. cbn [obind existsb].
  assert (E : isbn_matches i b = py_str_eq x i) by (unfold isbn_matches; rewrite Hx; reflexivity).
  rewrite E.
  destruct (py_str_eq x i); [reflexivity|exact IH].
Qed.

Lemma existsb_isbn_Exists (bs : list json) (i : pystr) :
  existsb (isbn_matches i) bs = true <-> Exists (isbn_is i) bs.
Proof.
  rewrite existsb_exists, Exists_exists.
  split; intros [b [Hin Hb]]; exists b; split; try assumption; apply isbn_matches_true; assumption.
Qed.

Lemma filter_field_filter (f q : pystr) (bs : list json) :
  Forall (str_field f) bs -> filter_field f q bs = Ok (filter (field_matches f q) bs).
Proof.
  induction 1 as [|b bs [s Hs] _ IH]; [reflexivity|].
  cbn [filter_field]. rewrite Hs. cbn [obind py_lower]. rewrite IH. cbn [obind filter].
  assert (E : field_matches f q b = ci_contains q s)
    by (unfold field_matches; rewrite Hs; reflexivity).
  rewrite E. reflexivity.
Qed.

(** ** The Store round trip *)

Ltac zcase :=
  repeat match goal with
  | |- context[Z.eqb ?a ?b] => destruct (Z.eqb_spec a b)
  | |- context[Z.leb ?a ?b] => destruct (Z.leb_spec a b)
  | |- context[Z.ltb ?a ?b] => destruct (Z.ltb_spec a b)
  end; cbn [andb orb negb]; try lia.

Lemma hex_val_digit (d : Z) : 0 <= d < 16 -> hex_val (hex_digit d) = Some d.
Proof. intro H. unfold hex_val, hex_digit, is_digit. zcase; f_equal; lia. Qed.

Lemma land_shiftr_15 (x k : Z) : 0 <= k -> Z.land (Z.shiftr x k) 15 = (x / 2 ^ k) mod 16.
Proof.
  intro Hk. rewrite Z.shiftr_div_pow2 by exact Hk. change 15 with (Z.ones 4).
  rewrite Z.land_ones by lia. reflexivity.
Qed.

Lemma hex4_u_escape (n : Z) : 0 <= n < 65536 ->
  hex4 (hex_digit (Z.land (Z.shiftr n 12) 15)) (hex_digit (Z.land (Z.shiftr n 8) 15))
       (hex_digit (Z.land (Z.shiftr n 4) 15)) (hex_digit (Z.land n 15)) = Some n.
Proof.
  intro H. rewrite !land_shiftr_15 by lia.
  change 15 with (Z.ones 4). rewrite Z.land_ones by lia.
  unfold hex4. rewrite !hex_val_digit by (apply Z.mod_pos_bound; lia).
  f_equal. change (2 ^ 12) with 4096. change (2 ^ 8) with 256. change (2 ^ 4) with 16.
  Z.div_mod_to_equations. lia.
Qed.

Lemma lor_low_bits (q y k : Z) : 0 <= k -> 0 <= y < 2 ^ k ->
  Z.lor (Z.shiftl q k) y = Z.shiftl q k + y.
Proof.
  intros Hk Hy.
  assert (H0 : Z.land (Z.shiftl q k) y = 0).
  2:{ rewrite <- Z.lxor_lor by exact H0. symmetry. apply Z.add_nocarry_lxor. exact H0. }
  apply Z.bits_inj'. intros i Hi. rewrite Z.land_spec, Z.bits_0.
  destruct (Z.lt_ge_cases i k) as [Hlt|Hge].
  - rewrite Z.shiftl_spec_low by exact Hlt. reflexivity.
  - rewrite <- (Z.mod_small y (2 ^ k)) by exact Hy.
    rewrite Z.mod_pow2_bits_high by lia. apply andb_false_r.
Qed.

Lemma hi_unit_value (c : Z) : 65536 <= c <= 1114111 -> hi_unit c = 55296 + (c - 65536) / 1024.
Proof.
  intro H. unfold hi_unit. change 55296 with (Z.shiftl 54 10).
  change 1023 with (Z.ones 10). rewrite Z.land_ones, Z.shiftr_div_pow2 by lia.
  rewrite lor_low_bits by (try apply Z.mod_pos_bound; lia).
  change (Z.shiftl 54 10) with 55296. change (2 ^ 10) with 1024.
  Z.div_mod_to_equations. lia.
Qed.

Lemma lo_unit_value (c : Z) : 65536 <= c <= 1114111 -> lo_unit c = 56320 + (c - 65536) mod 1024.
Proof.
  intro H. unfold lo_unit. change 56320 with (Z.shiftl 55 10).
  change 1023 with (Z.ones 10). rewrite Z.land_ones by lia.
  rewrite lor_low_bits by (try apply Z.mod_pos_bound; lia).
  reflexivity.
Qed.

Lemma join_units (c : Z) : 65536 <= c <= 1114111 -> join_surrogates (hi_unit c) (lo_unit c) = c.
Proof.
  intro H. unfold join_surrogates. rewrite hi_unit_value, lo_unit_value by exact H.
  change 1023 with (Z.ones 10). rewrite !Z.land_ones by lia.
  rewrite lor_low_bits by (try apply Z.mod_pos_bound; lia).
  rewrite Z.shiftl_mul_pow2 by lia. change (2 ^ 10) with 1024.
  Z.div_mod_to_equations. lia.
Qed.

Lemma scanstring_u (a b c d u : Z) (r : pystr) :
  hex4 a b c d = Some u -> (is_high_surrogate u = true -> no_low_escape r) ->
  scanstring (92 :: 117 :: a :: b :: c :: d :: r) = cons_str u (scanstring r).
Proof.
  intros H4 Hno. cbn [scanstring Z.eqb Pos.eqb]. rewrite H4.
  destruct (is_high_surrogate u) eqn:Hh; [|reflexivity].
  specialize (Hno eq_refl).
  destruct r as [|x1 [|x2 [|a2 [|b2 [|c2 [|d2 r3]]]]]]; try reflexivity.
  destruct ((x1 =? 92) && (x2 =? 117)) eqn:E; [|reflexivity].
  apply andb_true_iff in E as [E1 E2]. apply Z.eqb_eq in E1, E2. subst x1 x2.
  destruct (hex4 a2 b2 c2 d2) as [u2|] eqn:H42.
  - rewrite (Hno _ _ _ _ _ _ eq_refl H42). reflexivity.
  - cbn [scanstring Z.eqb Pos.eqb]. rewrite H42. reflexivity.
Qed.

Lemma u_escape_hex (n : Z) (r : pystr) : 0 <= n < 65536 ->
  exists a b c d, u_escape n ++ r = 92 :: 117 :: a :: b :: c :: d :: r /\ hex4 a b c d = Some n.
Proof.
  intro H. do 4 eexists. split; [reflexivity|]. apply hex4_u_escape. exact H.
Qed.

Lemma is_high_hi_unit (c : Z) : 65536 <= c <= 1114111 -> is_high_surrogate (hi_unit c) = true.
Proof.
  intro H. rewrite hi_unit_value by exact H. unfold is_high_surrogate.
  Z.div_mod_to_equations. zcase.
Qed.

Lemma is_low_lo_unit (c : Z) : 65536 <= c <= 1114111 -> is_low_surrogate (lo_unit c) = true.
Proof.
  intro H. rewrite lo_unit_value by exact H. unfold is_low_surrogate.
  Z.div_mod_to_equations. zcase.
Qed.

Lemma hi_unit_range (c : Z) : 65536 <= c <= 1114111 -> 0 <= hi_unit c < 65536.
Proof. intro H. rewrite hi_unit_value by exact H. Z.div_mod_to_equations. lia. Qed.

Lemma lo_unit_range (c : Z) : 65536 <= c <= 1114111 -> 0 <= lo_unit c < 65536.
Proof. intro H. rewrite lo_unit_value by exact H. Z.div_mod_to_equations. lia. Qed.

Lemma escape_char_astral (c : Z) : 65536 <= c <= 1114111 ->
  escape_char c = u_escape (hi_unit c) ++ u_escape (lo_unit c).
Proof. intro H. unfold escape_char. zcase. reflexivity. Qed.

(** [escape_char c] as [scanstring] reads it back. *)
Lemma scanstring_escape_char (c : Z) (r : pystr) :
  cp_ok c = true -> (is_high_surrogate c = true -> no_low_escape r) ->
  scanstring (escape_char c ++ r) = cons_str c (scanstring r).
Proof.
  intros Hok Hno. unfold cp_ok in Hok. apply andb_true_iff in Hok as [H1 H2].
  apply Z.leb_le in H1, H2.
  destruct (Z.ltb_spec c 65536) as [Hbmp|Hastral].
  - unfold escape_char.
    destruct (Z.eqb_spec c 92); [subst; reflexivity|].
    destruct (Z.eqb_spec c 34); [subst; reflexivity|].
    destruct (Z.eqb_spec c 8); [subst; reflexivity|].
    destruct (Z.eqb_spec c 12); [subst; reflexivity|].
    destruct (Z.eqb_spec c 10); [subst; reflexivity|].
    destruct (Z.eqb_spec c 13); [subst; reflexivity|].
    destruct (Z.eqb_spec c 9); [subst; reflexivity|].
    destruct ((32 <=? c) && (c <=? 126)) eqn:Hp.
    + apply andb_true_iff in Hp as [Hp1 Hp2]. apply Z.leb_le in Hp1, Hp2.
      cbn [app scanstring]. zcase. reflexivity.
    + destruct (Z.ltb_spec c 65536); [|lia].
      destruct (u_escape_hex c r ltac:(lia)) as (a & b & c' & d & -> & H4).
      apply scanstring_u; assumption.
  - rewrite escape_char_astral by lia. rewrite <- app_assoc.
    destruct (u_escape_hex (lo_unit c) r (lo_unit_range c ltac:(lia))) as (a2 & b2 & c2 & d2 & -> & H42).
    destruct (u_escape_hex (hi_unit c) (92 :: 117 :: a2 :: b2 :: c2 :: d2 :: r)
                (hi_unit_range c ltac:(lia))) as (a & b & c' & d & -> & H4).
    cbn [scanstring Z.eqb Pos.eqb]. rewrite H4, is_high_hi_unit by lia.
    cbn [Z.eqb Pos.eqb andb]. rewrite H42, is_low_lo_unit by lia.
    rewrite join_units by lia. reflexivity.
Qed.

Lemma high_not_low (u : Z) : is_high_surrogate u = true -> is_low_surrogate u = false.
Proof. unfold is_high_surrogate, is_low_surrogate. zcase. Qed.

Lemma escape_char_no_low (d : Z) (X : pystr) :
  cp_ok d = true -> is_low_surrogate d = false -> no_low_escape (escape_char d ++ X).
Proof.
  intros Hok Hlow. unfold cp_ok in Hok. apply andb_true_iff in Hok as [H1 H2].
  apply Z.leb_le in H1, H2. intros a b c e r' u Heq H4.
  destruct (Z.ltb_spec d 65536) as [Hbmp|Hastral].
  - unfold escape_char in Heq.
    destruct (Z.eqb_spec d 92); [discriminate Heq|].
    destruct (Z.eqb_spec d 34); [discriminate Heq|].
    destruct (Z.eqb_spec d 8); [discriminate Heq|].
    destruct (Z.eqb_spec d 12); [discriminate Heq|].
    destruct (Z.eqb_spec d 10); [discriminate Heq|].
    destruct (Z.eqb_spec d 13); [discriminate Heq|].
    destruct (Z.eqb_spec d 9); [discriminate Heq|].
    destruct ((32 <=? d) && (d <=? 126)) eqn:Hp.
    + injection Heq as Hd _. congruence.
    + destruct (Z.ltb_spec d 65536); [|lia].
      destruct (u_escape_hex d X ltac:(lia)) as (a' & b' & c' & e' & Hx & H4').
      rewrite Hx in Heq. injection Heq as -> -> -> -> _. congruence.
  - rewrite escape_char_astral in Heq by lia. rewrite <- app_assoc in Heq.
    destruct (u_escape_hex (hi_unit d) (u_escape (lo_unit d) ++ X)
                (hi_unit_range d ltac:(lia))) as (a' & b' & c' & e' & Hx & H4').
    rewrite Hx in Heq. injection Heq as -> -> -> -> _.
    rewrite H4 in H4'. injection H4' as ->. apply high_not_low, is_high_hi_unit. lia.
Qed.

Lemma no_low_escape_quote (rest : pystr) : no_low_escape (34 :: rest).
Proof. intros a b c d r' u Heq. discriminate Heq. Qed.

(** The body of [encode_basestring_ascii s], as [scanstring] reads it. *)
Lemma scanstring_escaped (s rest : pystr) :
  str_wf s = true -> scanstring (flat_map escape_char s ++ 34 :: rest) = Some (s, rest).
Proof.
  induction s as [|c s IH]; intro Hwf; [reflexivity|].
  cbn [str_wf] in Hwf. apply andb_true_iff in Hwf as [Hwf Hs].
  apply andb_true_iff in Hwf as [Hok Hpair].
  cbn [flat_map]. rewrite <- app_assoc.
  assert (Hno : is_high_surrogate c = true ->
                no_low_escape (flat_map escape_char s ++ 34 :: rest)).
  { intro Hh. destruct s as [|d s']; [apply no_low_escape_quote|].
    cbn [flat_map]. rewrite <- app_assoc. cbn [str_wf] in Hs.
    apply andb_true_iff in Hs as [Hs _]. apply andb_true_iff in Hs as [Hd _].
    apply escape_char_no_low; [exact Hd|].
    rewrite Hh in Hpair. destruct (is_low_surrogate d); [discriminate|reflexivity]. }
  rewrite (scanstring_escape_char c _ Hok Hno).
  rewrite IH by exact Hs. reflexivity.
Qed.

Lemma take_digits_split (s ds r : pystr) :
  take_digits s = (ds, r) -> s = ds ++ r /\ forallb is_digit ds = true.
Proof.
  revert ds r. induction s as [|c s IH]; intros ds r H.
  - injection H as <- <-. split; reflexivity.
  - cbn [take_digits] in H. destruct (is_digit c) eqn:Hc.
    + destruct (take_digits s) as [ds' r'] eqn:E. injection H as <- <-.
      destruct (IH _ _ eq_refl) as [-> Hd]. split; [reflexivity|]. cbn. rewrite Hc. exact Hd.
    + injection H as <- <-. split; reflexivity.
Qed.

Lemma take_digits_app (s ds r : pystr) (z : Z) (m : pystr) :
  is_digit z = false -> take_digits s = (ds, r) -> take_digits (s ++ z :: m) = (ds, r ++ z :: m).
Proof.
  intro Hz. revert ds r. induction s as [|c s IH]; intros ds r H.
  - injection H as <- <-. cbn. rewrite Hz. reflexivity.
  - cbn [take_digits app] in H |- *. destruct (is_digit c).
    + destruct (take_digits s) as [ds' r'] eqn:E. injection H as <- <-.
      rewrite (IH _ _ eq_refl). reflexivity.
    + injection H as <- <-. reflexivity.
Qed.

Lemma stop_char_facts (z : Z) : stop_char z = true ->
  is_digit z = false /\ (z =? 45) = false /\ (z =? 46) = false /\
  ((z =? 101) || (z =? 69)) = false.
Proof. unfold stop_char, is_digit. zcase; repeat split; reflexivity. Qed.

Lemma scan_sign_app (s sg s1 : pystr) (z : Z) (m : pystr) :
  stop_char z = true -> scan_sign s = (sg, s1) -> scan_sign (s ++ z :: m) = (sg, s1 ++ z :: m).
Proof.
  intros Hz H. destruct (stop_char_facts z Hz) as (_ & H45 & _).
  destruct s as [|c s]; cbn [scan_sign app] in H |- *.
  - injection H as <- <-. rewrite H45. reflexivity.
  - destruct (c =? 45); injection H as <- <-; reflexivity.
Qed.

Lemma scan_int_app (s ip s2 : pystr) (z : Z) (m : pystr) :
  stop_char z = true -> scan_int s = Some (ip, s2) -> scan_int (s ++ z :: m) = Some (ip, s2 ++ z :: m).
Proof.
  intros Hz H. destruct (stop_char_facts z Hz) as (Hd & _).
  destruct s as [|c s]; [discriminate|]. cbn [scan_int app] in H |- *.
  destruct ((49 <=? c) && (c <=? 57)).
  - destruct (take_digits s) as [ds r] eqn:E. injection H as <- <-.
    rewrite (take_digits_app _ _ _ _ _ Hd E). reflexivity.
  - destruct (c =? 48); [|discriminate]. injection H as <- <-. reflexivity.
Qed.

Lemma scan_exp_app (s ep : pystr) (z : Z) (m : pystr) :
  stop_char z = true -> scan_exp s = (ep, []) -> scan_exp (s ++ z :: m) = (ep, z :: m).
Proof.
  intros Hz H. destruct (stop_char_facts z Hz) as (Hd & _ & _ & He).
  destruct s as [|c r].
  - injection H as <-. cbn. rewrite He. reflexivity.
  - cbn [scan_exp app] in H |- *. destruct ((c =? 101) || (c =? 69)); [|discriminate].
    destruct r as [|d r0].
    + discriminate H.
    + cbn [app]. destruct ((d =? 43) || (d =? 45)).
      * destruct (take_digits r0) as [ds r2] eqn:E.
        rewrite (take_digits_app _ _ _ _ _ Hd E).
        destruct ds; [discriminate|]. injection H as <- ->. reflexivity.
      * destruct (take_digits (d :: r0)) as [ds r2] eqn:E.
        change (d :: r0 ++ z :: m) with ((d :: r0) ++ z :: m).
        rewrite (take_digits_app _ _ _ _ _ Hd E).
        destruct ds; [discriminate|]. injection H as <- ->. reflexivity.
Qed.

Lemma scan_frac_app (s fp s3 ep : pystr) (z : Z) (m : pystr) :
  stop_char z = true -> scan_frac s = (fp, s3) -> scan_exp s3 = (ep, []) ->
  scan_frac (s ++ z :: m) = (fp, s3 ++ z :: m).
Proof.
  intros Hz H He. destruct (stop_char_facts z Hz) as (Hd & _ & H46 & _).
  destruct s as [|c [|d r]].
  - injection H as <- <-. destruct m as [|y m]; cbn; [reflexivity|]. rewrite H46. reflexivity.
  - injection H as <- <-. cbn in He. destruct ((c =? 101) || (c =? 69)); discriminate He.
  - cbn [scan_frac app] in H |- *. destruct ((c =? 46) && is_digit d).
    + destruct (take_digits r) as [ds r'] eqn:E. injection H as <- <-.
      rewrite (take_digits_app _ _ _ _ _ Hd E). reflexivity.
    + injection H as <- <-. reflexivity.
Qed.

Lemma match_number_app (t : pystr) (z : Z) (m : pystr) :
  stop_char z = true -> match_number t = Some (t, []) -> match_number (t ++ z :: m) = Some (t, z :: m).
Proof.
  intros Hz H. unfold match_number in *.
  destruct (scan_sign t) as [sg s1] eqn:Hs.
  destruct (scan_int s1) as [[ip s2]|] eqn:Hi; [|discriminate].
  destruct (scan_frac s2) as [fp s3] eqn:Hf.
  destruct (scan_exp s3) as [ep s4] eqn:He.
  injection H as Ht ->.
  rewrite (scan_sign_app _ _ _ _ m Hz Hs), (scan_int_app _ _ _ _ m Hz Hi),
    (scan_frac_app _ _ _ _ _ m Hz Hf He), (scan_exp_app _ _ _ m Hz He).
  rewrite Ht. reflexivity.
Qed.

Lemma digits_numchars (ds : pystr) : forallb is_digit ds = true -> forallb numchar ds = true.
Proof.
  induction ds as [|d ds IH]; [reflexivity|]. cbn. intro H.
  apply andb_true_iff in H as [H1 H2]. rewrite IH by exact H2. unfold numchar. rewrite H1. reflexivity.
Qed.

Lemma scan_sign_split (s sg s1 : pystr) :
  scan_sign s = (sg, s1) -> s = sg ++ s1 /\ (sg = [] \/ sg = [45]).
Proof.
  destruct s as [|c s]; cbn; intro H.
  - injection H as <- <-. auto.
  - destruct (Z.eqb_spec c 45); injection H as <- <-; subst; auto.
Qed.

Lemma scan_int_split (s ip s2 : pystr) :
  scan_int s = Some (ip, s2) ->
  s = ip ++ s2 /\ forallb is_digit ip = true /\ exists d ip', ip = d :: ip'.
Proof.
  destruct s as [|c s]; [discriminate|]. cbn [scan_int]. intro H.
  destruct ((49 <=? c) && (c <=? 57)) eqn:Hc.
  - destruct (take_digits s) as [ds r] eqn:E. injection H as <- <-.
    destruct (take_digits_split _ _ _ E) as [-> Hd]. split; [reflexivity|]. split; [|eauto].
    cbn [forallb]. rewrite Hd. unfold is_digit. apply andb_true_iff in Hc as [H1 H2].
    apply Z.leb_le in H1, H2. zcase; reflexivity.
  - destruct (Z.eqb_spec c 48); [|discriminate]. injection H as <- <-. subst.
    split; [reflexivity|]. split; [reflexivity|eauto].
Qed.

Lemma scan_frac_split (s fp s3 : pystr) :
  scan_frac s = (fp, s3) -> s = fp ++ s3 /\ forallb numchar fp = true.
Proof.
  destruct s as [|c [|d r]]; cbn [scan_frac]; intro H; try (injection H as <- <-; split; reflexivity).
  destruct ((c =? 46) && is_digit d) eqn:Hc.
  - destruct (take_digits r) as [ds r'] eqn:E. injection H as <- <-.
    destruct (take_digits_split _ _ _ E) as [-> Hds]. split; [reflexivity|].
    apply andb_true_iff in Hc as [H1 H2]. apply Z.eqb_eq in H1. subst c.
    cbn. rewrite digits_numchars by exact Hds. unfold numchar. rewrite H2. reflexivity.
  - injection H as <- <-. split; reflexivity.
Qed.

Lemma scan_exp_split (s ep s4 : pystr) :
  scan_exp s = (ep, s4) -> s = ep ++ s4 /\ forallb numchar ep = true.
Proof.
  destruct s as [|c r]; cbn [scan_exp]; intro H; [injection H as <- <-; split; reflexivity|].
  destruct ((c =? 101) || (c =? 69)) eqn:Hc; [|injection H as <- <-; split; reflexivity].
  assert (Hcn : numchar c = true)
    by (apply orb_true_iff in Hc as [Hc|Hc]; apply Z.eqb_eq in Hc; subst; reflexivity).
  destruct r as [|d r0].
  - injection H as <- <-. split; reflexivity.
  - destruct ((d =? 43) || (d =? 45)) eqn:Hd.
    + destruct (take_digits r0) as [ds r2] eqn:E. destruct (take_digits_split _ _ _ E) as [-> Hds].
      destruct ds as [|x ds']; injection H as <- <-; [split; reflexivity|].
      split; [reflexivity|]. cbn [app forallb]. rewrite Hcn.
      assert (numchar d = true) as ->
        by (apply orb_true_iff in Hd as [Hd|Hd]; apply Z.eqb_eq in Hd; subst; reflexivity).
      apply (digits_numchars (x :: ds')). exact Hds.
    + destruct (take_digits (d :: r0)) as [ds r2] eqn:E.
      destruct (take_digits_split _ _ _ E) as [Heq Hds].
      destruct ds as [|x ds']; injection H as <- <-; [split; reflexivity|].
      rewrite Heq. split; [reflexivity|]. cbn [app forallb]. rewrite Hcn.
      apply (digits_numchars (x :: ds')). exact Hds.
Qed.

(** What [match_number] accepts: a prefix of number characters that starts
    with a digit, or with "-" and a digit. *)
Lemma match_number_split (s t r : pystr) :
  match_number s = Some (t, r) ->
  s = t ++ r /\ forallb numchar t = true /\
  exists d t', is_digit d = true /\ (t = d :: t' \/ t = 45 :: d :: t').
Proof.
  unfold match_number. intro H.
  destruct (scan_sign s) as [sg s1] eqn:Hs.
  destruct (scan_int s1) as [[ip s2]|] eqn:Hi; [|discriminate].
  destruct (scan_frac s2) as [fp s3] eqn:Hf.
  destruct (scan_exp s3) as [ep s4] eqn:He.
  injection H as <- <-.
  destruct (scan_sign_split _ _ _ Hs) as [-> Hsg].
  destruct (scan_int_split _ _ _ Hi) as (-> & Hip & d & ip' & ->).
  destruct (scan_frac_split _ _ _ Hf) as [-> Hfp].
  destruct (scan_exp_split _ _ _ He) as [-> Hep].
  cbn [forallb] in Hip. apply andb_true_iff in Hip as [Hd Hip'].
  split; [rewrite !app_assoc; reflexivity|]. split.
  - assert (numchar d = true) as Hdn by (unfold numchar; rewrite Hd; reflexivity).
    destruct Hsg as [->| ->]; cbn [app forallb];
      rewrite !forallb_app, Hfp, Hep, (digits_numchars ip' Hip'), Hdn; reflexivity.
  - exists d, (ip' ++ fp ++ ep). split; [exact Hd|].
    destruct Hsg as [->| ->]; [left|right]; reflexivity.
Qed.

Lemma iterencode_arr (lvl : nat) (x : json) (xs : list json) :
  iterencode lvl (JArr (x :: xs))
  = 91 :: newline_indent (S lvl) ++ iterencode (S lvl) x ++ enc_items (S lvl) xs
       ++ newline_indent lvl ++ [93].
Proof.
  cbn [iterencode]. do 3 f_equal. f_equal.
  induction xs as [|y ys IH]; [reflexivity|]. cbn [enc_items]. rewrite <- IH. reflexivity.
Qed.

Lemma iterencode_obj (lvl : nat) (k : pystr) (x : json) (kvs : list (pystr * json)) :
  iterencode lvl (JObj ((k, x) :: kvs))
  = 123 :: newline_indent (S lvl) ++ encode_basestring_ascii k ++ [58; 32]
        ++ iterencode (S lvl) x ++ enc_members (S lvl) kvs ++ newline_indent lvl ++ [125].
Proof.
  cbn [iterencode]. do 5 f_equal. f_equal.
  induction kvs as [|[k' y] ys IH]; [reflexivity|]. cbn [enc_members]. rewrite <- IH. reflexivity.
Qed.

Lemma bz_byte_of (c : Z) : 0 <= c <= 255 -> bz (byte_of c) = c.
Proof.
  intro H. unfold byte_of, bz. destruct (Byte.of_N (Z.to_N c)) as [b|] eqn:E.
  - apply Byte.to_of_N in E. rewrite E. apply Z2N.id. lia.
  - apply Byte.of_N_None_iff in E. lia.
Qed.

Lemma skip_ws_indent (lvl : nat) (s : pystr) : skip_ws (newline_indent lvl ++ s) = skip_ws s.
Proof.
  unfold newline_indent. cbn [app skip_ws is_ws Z.eqb Pos.eqb orb].
  induction (4 * lvl)%nat as [|n IH]; [reflexivity|]. exact IH.
Qed.

Lemma skip_ws_stop (c : Z) (s : pystr) : is_ws c = false -> skip_ws (c :: s) = c :: s.
Proof. intro H. cbn [skip_ws]. rewrite H. reflexivity. Qed.

Lemma scan_once_string (f : nat) (s rest : pystr) :
  str_wf s = true -> scan_once (S f) (encode_basestring_ascii s ++ rest) = Some (JStr s, rest).
Proof.
  intro H. unfold encode_basestring_ascii. cbn [app]. rewrite <- app_assoc. cbn [app].
  cbn [scan_once Z.eqb Pos.eqb]. rewrite scanstring_escaped by exact H. reflexivity.
Qed.

Lemma scan_once_number (f : nat) (t rest : pystr) :
  match_number t = Some (t, []) -> delim rest = true ->
  scan_once (S f) (t ++ rest) = Some (JNum t, rest).
Proof.
  intros Ht Hr.
  assert (Hm : match_number (t ++ rest) = Some (t, rest)).
  { destruct rest as [|z m]; [rewrite app_nil_r; exact Ht|]. apply match_number_app; assumption. }
  destruct (match_number_split _ _ _ Ht) as (_ & _ & d & t' & Hd & [-> | ->]);
    cbn [app] in Hm |- *; cbn -[match_number]; unfold is_digit in Hd;
    apply andb_true_iff in Hd as [Hd1 Hd2]; apply Z.leb_le in Hd1, Hd2; zcase; rewrite Hm; reflexivity.
Qed.

Lemma pystr_eqb_true' (a b : pystr) : pystr_eqb a b = true -> a = b.
Proof. apply pystr_eqb_true. Qed.

Lemma iterencode_head (v : json) (lvl : nat) : json_wf v = true ->
  exists c t, iterencode lvl v = c :: t /\ is_ws c = false /\ (c =? 93) = false.
Proof.
  intro H. destruct v as [|b|t|s|[|x xs]|[|[k x] kvs]];
    try (destruct b); try (eexists; eexists; split; [reflexivity|split; reflexivity]).
  - cbn [json_wf number_ok] in H.
    repeat (apply orb_true_iff in H as [H|H]);
      try (apply pystr_eqb_true' in H; subst t; eexists; eexists; split; [reflexivity|split; reflexivity]).
    destruct (match_number t) as [[t' [|]]|] eqn:E; try discriminate.
    apply pystr_eqb_true' in H. subst t'.
    destruct (match_number_split _ _ _ E) as (_ & _ & d & t' & Hd & [-> | ->]);
      cbn [iterencode]; eexists; eexists; (split; [reflexivity|]);
      unfold is_digit in Hd; apply andb_true_iff in Hd as [Hd1 Hd2]; apply Z.leb_le in Hd1, Hd2;
      unfold is_ws; zcase; split; reflexivity.
Qed.

Lemma skip_ws_iterencode (v : json) (lvl : nat) (s : pystr) :
  json_wf v = true -> skip_ws (iterencode lvl v ++ s) = iterencode lvl v ++ s.
Proof.
  intro H. destruct (iterencode_head v lvl H) as (c & t & E & Hws & _).
  rewrite E. cbn [app]. apply skip_ws_stop. exact Hws.
Qed.

Lemma parse_array_items (xs : list json) : forall x acc f L K rest,
  json_wf x = true -> scans_back x ->
  Forall (fun y => json_wf y = true /\ scans_back y) xs ->
  (S (jsize x) + items_size xs < f)%nat ->
  parse_array f acc (iterencode L x ++ enc_items L xs ++ newline_indent K ++ 93 :: rest)
  = Some (JArr (acc ++ x :: xs), rest).
Proof.
  induction xs as [|y ys IH]; intros x acc f L K rest Hwf Hx Hall Hf;
    (destruct f as [|f]; [lia|]); cbn [parse_array].
  - rewrite Hx by (try reflexivity; lia). cbn [enc_items app].
    rewrite skip_ws_indent. reflexivity.
  - assert (Hsz : items_size (y :: ys) = (S (S (jsize y)) + items_size ys)%nat) by reflexivity.
    rewrite Hsz in Hf.
    inversion Hall as [|y' ys' [Hwy Hy] Hall' ]; subst y' ys'.
    rewrite Hx by (try reflexivity; lia). cbn [enc_items app skip_ws is_ws Z.eqb Pos.eqb orb].
    rewrite <- !app_assoc, skip_ws_indent, skip_ws_iterencode by exact Hwy.
    rewrite IH by (try assumption; lia). rewrite <- app_assoc. reflexivity.
Qed.

Lemma keys_distinct_fresh (acc : list (pystr * json)) (k : pystr) (x : json) r :
  keys_distinct (acc ++ (k, x) :: r) = true -> existsb (fun kv => pystr_eqb (fst kv) k) acc = false.
Proof.
  induction acc as [|[k' v'] acc IH]; intro H; [reflexivity|].
  cbn [app keys_distinct] in H. apply andb_true_iff in H as [H1 H2].
  cbn [existsb fst]. rewrite IH by exact H2.
  destruct (pystr_eqb k' k) eqn:E; [|reflexivity].
  apply pystr_eqb_true in E. subst k'.
  rewrite existsb_app in H1. cbn [existsb fst] in H1. rewrite pystr_eqb_refl in H1.
  rewrite orb_true_r in H1. discriminate H1.
Qed.

Lemma dict_setitem_fresh (acc : list (pystr * json)) (k : pystr) (x : json) :
  existsb (fun kv => pystr_eqb (fst kv) k) acc = false -> dict_setitem acc k x = acc ++ [(k, x)].
Proof.
  induction acc as [|[k' v'] acc IH]; intro H; [reflexivity|].
  cbn [existsb fst] in H. apply orb_false_iff in H as [H1 H2].
  cbn [dict_setitem]. rewrite H1, IH by exact H2. reflexivity.
Qed.

Lemma encode_key (k : pystr) (s : pystr) :
  encode_basestring_ascii k ++ [58; 32] ++ s = 34 :: flat_map escape_char k ++ 34 :: 58 :: 32 :: s.
Proof. unfold encode_basestring_ascii. cbn [app]. rewrite <- app_assoc. reflexivity. Qed.

Lemma encode_key' (k : pystr) (s : pystr) :
  encode_basestring_ascii k ++ 58 :: 32 :: s = 34 :: flat_map escape_char k ++ 34 :: 58 :: 32 :: s.
Proof. exact (encode_key k s). Qed.

Lemma skip_ws_encode (k s : pystr) :
  skip_ws (encode_basestring_ascii k ++ s) = encode_basestring_ascii k ++ s.
Proof. reflexivity. Qed.

Lemma parse_object_members (kvs : list (pystr * json)) : forall k x acc f L K rest,
  str_wf k = true -> json_wf x = true -> scans_back x ->
  Forall (fun kv => str_wf (fst kv) = true /\ json_wf (snd kv) = true /\ scans_back (snd kv)) kvs ->
  keys_distinct (acc ++ (k, x) :: kvs) = true ->
  (S (jsize x) + members_size kvs < f)%nat ->
  parse_object f acc
    (encode_basestring_ascii k ++ [58; 32] ++ iterencode L x ++ enc_members L kvs
       ++ newline_indent K ++ 125 :: rest)
  = Some (JObj (acc ++ (k, x) :: kvs), rest).
Proof.
  induction kvs as [|[k' y] ys IH]; intros k x acc f L K rest Hk Hwf Hx Hall Hd Hf;
    (destruct f as [|f]; [lia|]); rewrite encode_key;
    cbn [parse_object Z.eqb Pos.eqb]; rewrite scanstring_escaped by exact Hk;
    cbn [skip_ws is_ws Z.eqb Pos.eqb orb]; rewrite skip_ws_iterencode by exact Hwf.
  - rewrite Hx by (try reflexivity; lia). cbn zeta.
    rewrite dict_setitem_fresh by (apply (keys_distinct_fresh _ _ _ _ Hd)).
    cbn [enc_members app].
    rewrite skip_ws_indent. reflexivity.
  - assert (Hsz : members_size ((k', y) :: ys) = (S (S (jsize y)) + members_size ys)%nat)
      by reflexivity.
    rewrite Hsz in Hf.
    inversion Hall as [|kv' ys' (Hk' & Hwy & Hy) Hall']; subst kv' ys'. cbn [fst snd] in Hk', Hwy, Hy.
    rewrite Hx by (try reflexivity; lia). cbn zeta.
    rewrite dict_setitem_fresh by (apply (keys_distinct_fresh _ _ _ _ Hd)).
    cbn [enc_members app skip_ws is_ws Z.eqb Pos.eqb orb].
    rewrite <- !app_assoc, skip_ws_indent, skip_ws_encode. cbn [app]. rewrite <- !app_assoc.
    replace (acc ++ (k, x) :: (k', y) :: ys) with ((acc ++ [(k, x)]) ++ (k', y) :: ys)
      by (rewrite <- app_assoc; reflexivity).
    apply IH; try assumption; [rewrite <- app_assoc; exact Hd | lia].
Qed.

Lemma scan_iterencode : forall v, json_wf v = true -> scans_back v.
Proof.
  apply (json_ind' (fun v => json_wf v = true -> scans_back v)).
  - intros _ lvl f rest Hf _. destruct f; [lia|]. reflexivity.
  - intros b _ lvl f rest Hf _. destruct f; [lia|]. destruct b; reflexivity.
  - intros t H lvl f rest Hf Hr. destruct f as [|f]; [lia|].
    cbn [json_wf number_ok] in H.
    repeat (apply orb_true_iff in H as [H|H]);
      try (apply pystr_eqb_true' in H; subst t; reflexivity).
    destruct (match_number t) as [[t' [|]]|] eqn:E; try discriminate.
    apply pystr_eqb_true' in H. subst t'. apply scan_once_number; assumption.
  - intros s H lvl f rest Hf _. destruct f; [lia|]. apply scan_once_string. exact H.
  - intros [|x xs] HF Hwf lvl f rest Hf Hr.
    + destruct f; [lia|]. reflexivity.
    + cbn [json_wf forallb] in Hwf. apply andb_true_iff in Hwf as [Hx Hxs].
      inversion HF as [|x' xs' IHx IHxs]; subst x' xs'.
      assert (Hall : Forall (fun y => json_wf y = true /\ scans_back y) xs).
      { apply Forall_forall. intros y Hy.
        assert (Hwy : json_wf y = true) by (eapply forallb_forall; eassumption).
        split; [exact Hwy|]. eapply Forall_forall in IHxs; [|exact Hy]. exact (IHxs Hwy). }
      assert (Hsz : jsize (JArr (x :: xs)) = (S (S (jsize x)) + items_size xs)%nat) by reflexivity.
      rewrite Hsz in Hf. destruct f as [|f]; [lia|].
      rewrite iterencode_arr. cbn [app scan_once Z.eqb Pos.eqb].
      rewrite <- !app_assoc, skip_ws_indent, skip_ws_iterencode by exact Hx.
      destruct (iterencode_head x (S lvl) Hx) as (c & t & Ec & _ & H93).
      rewrite Ec. cbn [app]. rewrite H93, app_comm_cons, <- Ec.
      apply (parse_array_items xs x [] f (S lvl) lvl rest Hx (IHx Hx) Hall). lia.
  - intros [|[k x] kvs] HF Hwf lvl f rest Hf Hr.
    + destruct f; [lia|]. reflexivity.
    + cbn [json_wf forallb fst snd] in Hwf.
      apply andb_true_iff in Hwf as [Hd Hwf]. apply andb_true_iff in Hwf as [Hkx Hkvs].
      apply andb_true_iff in Hkx as [Hk Hx].
      inversion HF as [|kv' kvs' IHx IHkvs]; subst kv' kvs'. cbn [snd] in IHx.
      assert (Hall : Forall (fun kv => str_wf (fst kv) = true /\ json_wf (snd kv) = true
                                       /\ scans_back (snd kv)) kvs).
      { apply Forall_forall. intros kv Hkv.
        assert (Hw : str_wf (fst kv) && json_wf (snd kv) = true)
          by (eapply forallb_forall in Hkvs; [exact Hkvs|exact Hkv]).
        apply andb_true_iff in Hw as [Hw1 Hw2].
        split; [exact Hw1|]. split; [exact Hw2|].
        eapply Forall_forall in IHkvs; [|exact Hkv]. exact (IHkvs Hw2). }
      assert (Hsz : jsize (JObj ((k, x) :: kvs)) = (S (S (jsize x)) + members_size kvs)%nat)
        by reflexivity.
      rewrite Hsz in Hf. destruct f as [|f]; [lia|].
      rewrite iterencode_obj. cbn [app scan_once Z.eqb Pos.eqb].
      rewrite <- !app_assoc, skip_ws_indent, skip_ws_encode. cbn [app].
      rewrite encode_key'. cbn [Z.eqb Pos.eqb]. rewrite <- encode_key', <- !app_assoc.
      apply (parse_object_members kvs k x [] f (S lvl) lvl rest Hk Hx (IHx Hx) Hall Hd). lia.
Qed.

Lemma length_indent (lvl : nat) : (1 <= List.length (newline_indent lvl))%nat.
Proof. cbn. lia. Qed.

Lemma jsize_le_length : forall v lvl, (jsize v <= List.length (iterencode lvl v))%nat.
Proof.
  apply (json_ind' (fun v => forall lvl, (jsize v <= List.length (iterencode lvl v))%nat));
    try (intros; cbn [jsize]; lia).
  - intros [|x xs] HF lvl; [cbn; lia|].
    inversion HF as [|x' xs' Hx Hxs]; subst x' xs'.
    assert (Hsz : jsize (JArr (x :: xs)) = (S (S (jsize x)) + items_size xs)%nat) by reflexivity.
    rewrite Hsz, iterencode_arr. cbn [List.length]. rewrite !length_app.
    assert (Hi : (items_size xs <= List.length (enc_items (S lvl) xs))%nat).
    { clear Hsz HF Hx. induction xs as [|y ys IH]; [cbn; lia|].
      inversion Hxs as [|y' ys' Hy Hys]; subst y' ys'.
      assert (Hsz : items_size (y :: ys) = (S (S (jsize y)) + items_size ys)%nat) by reflexivity.
      rewrite Hsz. cbn [enc_items List.length]. rewrite !length_app.
      specialize (IH Hys). specialize (Hy (S lvl)). pose proof (length_indent (S lvl)). lia. }
    specialize (Hx (S lvl)). pose proof (length_indent (S lvl)). lia.
  - intros [|[k x] kvs] HF lvl; [cbn; lia|].
    inversion HF as [|x' kvs' Hx Hkvs]; subst x' kvs'. cbn [snd] in Hx.
    assert (Hsz : jsize (JObj ((k, x) :: kvs)) = (S (S (jsize x)) + members_size kvs)%nat)
      by reflexivity.
    rewrite Hsz, iterencode_obj. cbn [List.length]. rewrite !length_app.
    assert (Hm : (members_size kvs <= List.length (enc_members (S lvl) kvs))%nat).
    { clear Hsz HF Hx. induction kvs as [|[k' y] ys IH]; [cbn; lia|].
      inversion Hkvs as [|y' ys' Hy Hys]; subst y' ys'. cbn [snd] in Hy.
      assert (Hsz : members_size ((k', y) :: ys) = (S (S (jsize y)) + members_size ys)%nat)
        by reflexivity.
      rewrite Hsz. cbn [enc_members List.length]. rewrite !length_app.
      specialize (IH Hys). specialize (Hy (S lvl)). pose proof (length_indent (S lvl)). lia. }
    specialize (Hx (S lvl)). pose proof (length_indent (S lvl)). lia.
Qed.

Lemma ascii_text_app (a b : pystr) : ascii_text (a ++ b) = ascii_text a && ascii_text b.
Proof. unfold ascii_text. apply forallb_app. Qed.

Lemma hex_digit_text (x : Z) : text_char (hex_digit (Z.land x 15)) = true.
Proof.
  change 15 with (Z.ones 4). rewrite Z.land_ones by lia.
  pose proof (Z.mod_pos_bound x (2 ^ 4) ltac:(lia)). change (2 ^ 4) with 16 in *.
  unfold text_char, hex_digit. destruct (Z.ltb_spec (x mod 16) 10); zcase; reflexivity.
Qed.

Lemma u_escape_text (n : Z) : ascii_text (u_escape n) = true.
Proof. unfold ascii_text, u_escape. cbn [forallb]. rewrite !hex_digit_text. reflexivity. Qed.

Lemma escape_char_text (c : Z) : ascii_text (escape_char c) = true.
Proof.
  unfold escape_char.
  destruct (c =? 92); [reflexivity|]. destruct (c =? 34); [reflexivity|].
  destruct (c =? 8); [reflexivity|]. destruct (c =? 12); [reflexivity|].
  destruct (c =? 10); [reflexivity|]. destruct (c =? 13); [reflexivity|].
  destruct (c =? 9); [reflexivity|].
  destruct ((32 <=? c) && (c <=? 126)) eqn:E.
  - apply andb_true_iff in E as [E1 E2]. apply Z.leb_le in E1. apply Z.leb_le in E2.
    unfold ascii_text, text_char. cbn [forallb]. zcase; reflexivity.
  - destruct (c <? 65536); [apply u_escape_text|].
    cbv zeta. rewrite ascii_text_app, !u_escape_text. reflexivity.
Qed.

Lemma encode_text (s : pystr) : ascii_text (encode_basestring_ascii s) = true.
Proof.
  unfold encode_basestring_ascii. change (34 :: ?x) with ([34] ++ x).
  rewrite !ascii_text_app. replace (ascii_text (flat_map escape_char s)) with true.
  - reflexivity.
  - induction s as [|c s IH]; [reflexivity|]. cbn [flat_map].
    rewrite ascii_text_app, escape_char_text, <- IH. reflexivity.
Qed.

Lemma indent_text (lvl : nat) : ascii_text (newline_indent lvl) = true.
Proof.
  unfold newline_indent. cbn [ascii_text forallb]. change (text_char 10) with true. cbn [andb].
  induction (4 * lvl)%nat as [|n IH]; [reflexivity|]. exact IH.
Qed.

Lemma numchar_text (c : Z) : numchar c = true -> text_char c = true.
Proof.
  unfold numchar, is_digit, text_char. intro H.
  repeat (apply orb_true_iff in H as [H|H]);
    try (apply Z.eqb_eq in H; subst c; reflexivity).
  apply andb_true_iff in H as [H1 H2]. apply Z.leb_le in H1. apply Z.leb_le in H2. zcase; reflexivity.
Qed.

Lemma number_text (t : pystr) : number_ok t = true -> ascii_text t = true.
Proof.
  unfold number_ok. intro H.
  repeat (apply orb_true_iff in H as [H|H]);
    try (apply pystr_eqb_true' in H; subst t; reflexivity).
  destruct (match_number t) as [[t' [|z r]]|] eqn:E; try discriminate.
  apply pystr_eqb_true' in H. subst t'.
  apply match_number_split in E as [_ [E _]].
  unfold ascii_text. rewrite forallb_forall in *. intros c Hc. apply numchar_text, E, Hc.
Qed.

Lemma iterencode_text : forall v lvl, json_wf v = true -> ascii_text (iterencode lvl v) = true.
Proof.
  apply (json_ind' (fun v => forall lvl, json_wf v = true -> ascii_text (iterencode lvl v) = true)).
  - reflexivity.
  - intros [] lvl _; reflexivity.
  - intros t lvl H. apply number_text, H.
  - intros s lvl _. apply encode_text.
  - intros [|x xs] HF lvl Hwf; [reflexivity|].
    cbn [json_wf forallb] in Hwf. apply andb_true_iff in Hwf as [Hx Hxs].
    inversion HF as [|x' xs' IHx IHxs]; subst x' xs'.
    rewrite iterencode_arr. change (91 :: ?x) with ([91] ++ x). rewrite !ascii_text_app.
    rewrite indent_text, IHx, indent_text by exact Hx. cbn [andb].
    replace (ascii_text (enc_items (S lvl) xs)) with true; [reflexivity|].
    clear HF IHx Hx. induction xs as [|y ys IH]; [reflexivity|].
    cbn [forallb] in Hxs. apply andb_true_iff in Hxs as [Hy Hys].
    inversion IHxs as [|y' ys' IHy IHys]; subst y' ys'.
    cbn [enc_items]. change (44 :: ?x) with ([44] ++ x). rewrite !ascii_text_app.
    rewrite indent_text, IHy, <- IH by assumption. reflexivity.
  - intros [|[k x] kvs] HF lvl Hwf; [reflexivity|].
    cbn [json_wf forallb fst snd] in Hwf.
    apply andb_true_iff in Hwf as [_ Hwf]. apply andb_true_iff in Hwf as [Hx Hkvs].
    apply andb_true_iff in Hx as [_ Hx].
    inversion HF as [|x' kvs' IHx IHkvs]; subst x' kvs'. cbn [snd] in IHx.
    rewrite iterencode_obj. change (123 :: ?x) with ([123] ++ x).
    change (58 :: 32 :: ?x) with ([58; 32] ++ x). rewrite !ascii_text_app.
    rewrite indent_text, encode_text, IHx, indent_text by exact Hx. cbn [andb].
    replace (ascii_text (enc_members (S lvl) kvs)) with true; [reflexivity|].
    clear HF IHx Hx. induction kvs as [|[k' y] ys IH]; [reflexivity|].
    cbn [forallb fst snd] in Hkvs. apply andb_true_iff in Hkvs as [Hy Hys].
    apply andb_true_iff in Hy as [_ Hy].
    inversion IHkvs as [|y' ys' IHy IHys]; subst y' ys'. cbn [snd] in IHy.
    cbn [enc_members]. change (44 :: ?x) with ([44] ++ x).
    change (58 :: 32 :: ?x) with ([58; 32] ++ x). rewrite !ascii_text_app.
    rewrite indent_text, encode_text, IHy, <- IH by assumption. reflexivity.
Qed.

Lemma text_char_lt (c : Z) : text_char c = true -> 0 <= c < 128 /\ c <> 13.
Proof.
  unfold text_char. intro H. apply andb_true_iff in H as [H H3].
  apply andb_true_iff in H as [H1 H2]. apply Z.leb_le in H1. apply Z.ltb_lt in H2.
  apply negb_true_iff, Z.eqb_neq in H3. lia.
Qed.

Lemma utf8_encode_ascii (s : pystr) : ascii_text s = true -> utf8_encode s = Some (map byte_of s).
Proof.
  induction s as [|c s IH]; [reflexivity|]. cbn [ascii_text forallb]. intro H.
  apply andb_true_iff in H as [Hc Hs]. apply text_char_lt in Hc.
  cbn [utf8_encode]. destruct (Z.ltb_spec c 128); [|lia].
  fold (ascii_text s) in Hs. rewrite (IH Hs). reflexivity.
Qed.

Lemma utf8_decode_ascii (s : pystr) : ascii_text s = true -> utf8_decode (map byte_of s) = Some s.
Proof.
  induction s as [|c s IH]; [reflexivity|]. cbn [ascii_text forallb]. intro H.
  apply andb_true_iff in H as [Hc Hs]. apply text_char_lt in Hc.
  cbn [map utf8_decode]. rewrite bz_byte_of by lia. destruct (Z.ltb_spec c 128); [|lia].
  fold (ascii_text s) in Hs. rewrite (IH Hs). reflexivity.
Qed.

Lemma translate_newlines_ascii (s : pystr) : ascii_text s = true -> translate_newlines s = s.
Proof.
  induction s as [|c s IH]; [reflexivity|]. cbn [ascii_text forallb]. intro H.
  apply andb_true_iff in H as [Hc Hs]. apply text_char_lt in Hc.
  cbn [translate_newlines]. destruct (Z.eqb_spec c 13); [lia|].
  fold (ascii_text s) in Hs. rewrite (IH Hs). reflexivity.
Qed.

Lemma json_loads_dump (v : json) : json_wf v = true -> json_loads (json_dump v) = Some v.
Proof.
  intro H. unfold json_loads, json_dump.
  pose proof (iterencode_text v 0%nat H) as Ht. pose proof (jsize_le_length v 0%nat) as Hs.
  pose proof (scan_iterencode v H 0%nat) as Hb. unfold scans_back in Hb.
  destruct (iterencode_head v 0%nat H) as (c & t & E & Hws & _). rewrite E in *.
  cbn [ascii_text forallb] in Ht. apply andb_true_iff in Ht as [Hc _]. apply text_char_lt in Hc.
  cbv beta iota. destruct (Z.eqb_spec c 65279); [lia|].
  assert (Hsk : skip_ws (c :: t) = c :: t) by (cbn [skip_ws]; rewrite Hws; reflexivity).
  rewrite Hsk, <- (app_nil_r (c :: t)), Hb.
  - reflexivity.
  - rewrite app_nil_r. cbn [List.length] in *. lia.
  - reflexivity.
Qed.

Lemma stored_ascii (v : json) : json_wf v = true -> stored v = Some (map byte_of (json_dump v)).
Proof. intro H. unfold stored. apply utf8_encode_ascii, iterencode_text, H. Qed.

Lemma load_books_stored (v : json) (w : world) :
  books_file w = stored v -> json_wf v = true -> load_books w = (Ok v, log_event EvOpenRead w).
Proof.
  intros Hf H. unfold load_books. rewrite Hf, (stored_ascii v H).
  pose proof (iterencode_text v 0%nat H) as Ht. fold (json_dump v) in Ht.
  rewrite utf8_decode_ascii, translate_newlines_ascii, json_loads_dump by assumption.
  reflexivity.
Qed.

Lemma save_books_stored (v : json) (w : world) : json_wf v = true ->
  exists w', save_books v w = (Ok tt, w') /\ books_file w' = stored v.
Proof.
  intro H. unfold save_books. pose proof (stored_ascii v H) as E. unfold stored in E.
  rewrite E. eexists. split; [reflexivity|]. cbn [books_file]. symmetry. exact (stored_ascii v H).
Qed.








Lemma find_isbn_split (i : pystr) : forall bs k n b,
  find_isbn bs i k = Ok (Some (n, b)) ->
  exists l1 l2 x, bs = l1 ++ b :: l2 /\ find_isbn l1 i k = Ok None /\ n = (k + List.length l1)%nat
    /\ py_getitem b (py "isbn") = Ok x /\ py_str_eq x i = true.
Proof.
  induction bs as [|c bs IH]; intros k n b H; cbn [find_isbn] in H; [discriminate|].
  destruct (py_getitem c (py "isbn")) as [x|e] eqn:Ec; cbn [obind] in H; [|discriminate].
  destruct (py_str_eq x i) eqn:Ex.
  - inversion H; subst. exists [], bs, x. cbn. repeat split; auto; lia.
  - destruct (IH (S k) n b H) as (l1 & l2 & y & -> & Hl1 & -> & Hy & Hyi).
    exists (c :: l1), l2, y. cbn [find_isbn app List.length]. rewrite Ec. cbn [obind]. rewrite Ex.
    repeat split; auto; lia.
Qed.


Lemma firstn_skipn_at {A} (l1 l2 : list A) (y : A) :
  firstn (List.length l1) (l1 ++ y :: l2) = l1 /\ skipn (S (List.length l1)) (l1 ++ y :: l2) = l2.
Proof.
  induction l1 as [|a l1 IH]; cbn; [auto|]. destruct IH as [H1 H2]. rewrite H1. cbn in H2.
  auto.
Qed.





(** ** Facts about the handlers *)

Lemma keeps_bind {A B} (m : M A) (k : A -> M B) :
  keeps_store m -> (forall a, keeps_store (k a)) -> keeps_store (bind m k).
Proof.
  intros Hm Hk w. unfold bind. specialize (Hm w). destruct (m w) as [[a|e] w1]; cbn in *.
  - rewrite Hk. exact Hm.
  - exact Hm.
Qed.

Lemma keeps_ret {A} (a : A) : keeps_store (ret a).
Proof. intro; reflexivity. Qed.

Lemma keeps_raise {A} (e : exn) : keeps_store (@raise A e).
Proof. intro; reflexivity. Qed.

Lemma keeps_lift {A} (o : outcome A) : keeps_store (lift o).
Proof. intro; reflexivity. Qed.

Lemma keeps_load : keeps_store load_books.
Proof. intro w. rewrite load_books_world. reflexivity. Qed.

Lemma keeps_fetch (net : upstream) (i : pystr) : keeps_store (fetch_google_book net i).
Proof. intro w. rewrite fetch_google_book_world. reflexivity. Qed.

Ltac keeps :=
  repeat first
    [ apply keeps_bind; [|intro]
    | apply keeps_ret | apply keeps_raise | apply keeps_lift | apply keeps_load
    | apply keeps_fetch
    | match goal with
      | |- keeps_store (match ?x with _ => _ end) => destruct x
      end ].

Lemma find_isbn_find (i : pystr) (bs : list json) (k : nat) :
  Forall has_isbn_key bs ->
  exists o, find_isbn bs i k = Ok o /\ option_map snd o = find (isbn_matches i) bs.
Proof.
  intro H. revert k. induction H as [|b bs [x Hx] _ IH]; intro k; [exists None; split; reflexivity|].
  cbn [find_isbn find]. rewrite Hx. cbn [obind].
  assert (E : isbn_matches i b = py_str_eq x i) by (unfold isbn_matches; rewrite Hx; reflexivity).
  rewrite E. destruct (py_str_eq x i).
  - exists (Some (k, b)). split; reflexivity.
  - apply IH.
Qed.

Lemma find_isbn_none (i : pystr) (bs : list json) (k : nat) :
  Forall has_isbn_key bs -> ~ Exists (isbn_is i) bs -> find_isbn bs i k = Ok None.
Proof.
  intros H Hn. destruct (find_isbn_find i bs k H) as ([[n b]|] & E & Ef); rewrite E; [|reflexivity].
  exfalso. apply Hn. cbn in Ef. symmetry in Ef. apply find_some in Ef as [Hin Hm].
  apply Exists_exists. exists b. split; [exact Hin|]. apply isbn_matches_true, Hm.
Qed.

Lemma wf_remove (l1 l2 : list json) (b : json) :
  json_wf (JArr (l1 ++ b :: l2)) = true -> json_wf (JArr (l1 ++ l2)) = true.
Proof.
  cbn [json_wf]. rewrite !forallb_app. cbn [forallb]. intro H.
  apply andb_true_iff in H as [H1 H2]. apply andb_true_iff in H2 as [_ H2].
  rewrite H1, H2. reflexivity.
Qed.




Lemma iterencode_text_nums : forall v lvl, nums_ok v = true -> ascii_text (iterencode lvl v) = true.
Proof.
  apply (json_ind' (fun v => forall lvl, nums_ok v = true -> ascii_text (iterencode lvl v) = true)).
  - reflexivity.
  - intros [] lvl _; reflexivity.
  - intros t lvl H. apply number_text, H.
  - intros s lvl _. apply encode_text.
  - intros [|x xs] HF lvl Hwf; [reflexivity|].
    cbn [nums_ok forallb] in Hwf. apply andb_true_iff in Hwf as [Hx Hxs].
    inversion HF as [|x' xs' IHx IHxs]; subst x' xs'.
    rewrite iterencode_arr. change (91 :: ?x) with ([91] ++ x). rewrite !ascii_text_app.
    rewrite indent_text, IHx, indent_text by exact Hx. cbn [andb].
    replace (ascii_text (enc_items (S lvl) xs)) with true; [reflexivity|].
    clear HF IHx Hx. induction xs as [|y ys IH]; [reflexivity|].
    cbn [forallb] in Hxs. apply andb_true_iff in Hxs as [Hy Hys].
    inversion IHxs as [|y' ys' IHy IHys]; subst y' ys'.
    cbn [enc_items]. change (44 :: ?x) with ([44] ++ x). rewrite !ascii_text_app.
    rewrite indent_text, IHy, <- IH by assumption. reflexivity.
  - intros [|[k x] kvs] HF lvl Hwf; [reflexivity|].
    cbn [nums_ok forallb fst snd] in Hwf. apply andb_true_iff in Hwf as [Hx Hkvs].
    inversion HF as [|x' kvs' IHx IHkvs]; subst x' kvs'. cbn [snd] in IHx.
    rewrite iterencode_obj. change (123 :: ?x) with ([123] ++ x).
    change (58 :: 32 :: ?x) with ([58; 32] ++ x). rewrite !ascii_text_app.
    rewrite indent_text, encode_text, IHx, indent_text by exact Hx. cbn [andb].
    replace (ascii_text (enc_members (S lvl) kvs)) with true; [reflexivity|].
    clear HF IHx Hx. induction kvs as [|[k' y] ys IH]; [reflexivity|].
    cbn [forallb fst snd] in Hkvs. apply andb_true_iff in Hkvs as [Hy Hys].
    inversion IHkvs as [|y' ys' IHy IHys]; subst y' ys'. cbn [snd] in IHy.
    cbn [enc_members]. change (44 :: ?x) with ([44] ++ x).
    change (58 :: 32 :: ?x) with ([58; 32] ++ x). rewrite !ascii_text_app.
    rewrite indent_text, encode_text, IHy, <- IH by assumption. reflexivity.
Qed.

(** ** C2: search-and-add fails without touching the Store *)

(** C2. If the lookup raises, POST /books/search raises the same exception
    and its only I/O is the upstream request: the Store is neither read
    nor written.  If the lookup succeeds and the loaded collection already
    holds a record with that isbn, it raises the duplicate error after
    reading the Store, and writes nothing: the file is unchanged. *)
Theorem search_and_add_book_atomic (net : upstream) (i : pystr) (w : world) :
  (forall e, fst (fetch_google_book net i w) = Raise e ->
     search_and_add_book net i w = (Raise e, log_event (EvHttpGet (google_url i)) w)) /\
  (forall book bs, fst (fetch_google_book net i w) = Ok book ->
     fst (load_books w) = Ok (JArr bs) ->
     Forall has_isbn_key bs ->
     Exists (isbn_is i) bs ->
     search_and_add_book net i w
     = (Raise duplicate_isbn, log_event EvOpenRead (log_event (EvHttpGet (google_url i)) w))
     /\ books_file (snd (search_and_add_book net i w)) = books_file w).
Proof.
  pose proof (fetch_google_book_world net i w) as Hw.
  split.
  - intros e He. unfold search_and_add_book, bind at 1.
    destruct (fetch_google_book net i w) as [o w1]. simpl in He, Hw. subst. reflexivity.
  - intros book bs Hf Hl Hall Hex.
    assert (Hdup : any_isbn bs i = Ok true).
    { rewrite any_isbn_existsb by assumption. f_equal. apply existsb_isbn_Exists. assumption. }
    assert (E : search_and_add_book net i w
                = (Raise duplicate_isbn,
                   log_event EvOpenRead (log_event (EvHttpGet (google_url i)) w))).
    { unfold search_and_add_book, bind at 1.
      destruct (fetch_google_book net i w) as [o w1]. simpl in Hf, Hw. subst.
      assert (Hl' : fst (load_books (log_event (EvHttpGet (google_url i)) w)) = Ok (JArr bs)).
      { rewrite <- Hl. apply load_books_same_file. reflexivity. }
      unfold bind at 1. rewrite (load_books_ok _ _ Hl').
      unfold bind, lift. cbn [py_iter obind]. rewrite Hdup. reflexivity. }
    split; [exact E|]. rewrite E. reflexivity.
Qed.

(** ** C3: manual add and duplicate isbns *)

(** C3. Over a loaded collection whose items all have an isbn, POST /books
    fails with the duplicate error exactly when some record has the new
    book's isbn; then the Store is only read (the file is unchanged).
    Otherwise the collection with the new record appended at its end is
    saved and the new record returned. *)
Theorem add_book_duplicate_iff (book : Book) (w : world) (bs : list json) :
  fst (load_books w) = Ok (JArr bs) ->
  Forall has_isbn_key bs ->
  (fst (add_book book w) = Raise duplicate_isbn <-> Exists (isbn_is book.(isbn)) bs) /\
  (Exists (isbn_is book.(isbn)) bs ->
     add_book book w = (Raise duplicate_isbn, log_event EvOpenRead w)) /\
  (~ Exists (isbn_is book.(isbn)) bs ->
     add_book book w
     = (_ <- save_books (JArr (bs ++ [model_dump book])) ;; ret (model_dump book))
         (log_event EvOpenRead w)).
Proof.
  intros Hl Hall.
  assert (Hany := any_isbn_existsb bs book.(isbn) Hall).
  assert (Hrun : add_book book w
                 = (if existsb (isbn_matches book.(isbn)) bs
                    then (Raise duplicate_isbn, log_event EvOpenRead w)
                    else (_ <- save_books (JArr (bs ++ [model_dump book])) ;; ret (model_dump book))
                           (log_event EvOpenRead w))).
  { unfold add_book, bind at 1. rewrite (load_books_ok _ _ Hl).
    unfold bind at 1, lift. cbn [py_iter obind]. rewrite Hany.
    destruct (existsb _ _); reflexivity. }
  assert (Hsave : forall w', fst ((_ <- save_books (JArr (bs ++ [model_dump book])) ;;
                                   ret (model_dump book)) w') <> Raise duplicate_isbn).
  { intro w'. unfold bind, save_books, ret.
    destruct (utf8_encode _); simpl; discriminate. }
  rewrite <- existsb_isbn_Exists.
  destruct (existsb (isbn_matches book.(isbn)) bs) eqn:Ex.
  - repeat split; intros; try reflexivity; try assumption; try congruence.
    rewrite Hrun; reflexivity.
  - repeat split; intros; try congruence.
Qed.

(** ** C7 and C10: searching by author and by title *)

Lemma get_books_by_author_result (q : pystr) (w : world) (bs : list json) :
  fst (load_books w) = Ok (JArr bs) -> Forall (str_field (py "author")) bs ->
  fst (get_books_by_author q w)
  = search_result (py "author") q (py "No books found for the given author") bs.
Proof.
  intros Hl Hf. unfold get_books_by_author, bind at 1. rewrite (load_books_ok _ _ Hl).
  unfold bind, lift. cbn [py_iter obind]. rewrite filter_field_filter by exact Hf.
  unfold search_result. destruct (filter _ bs); reflexivity.
Qed.

Lemma get_books_by_title_result (q : pystr) (w : world) (bs : list json) :
  fst (load_books w) = Ok (JArr bs) -> Forall (str_field (py "title")) bs ->
  fst (get_books_by_title q w)
  = search_result (py "title") q (py "No books found for the given title") bs.
Proof.
  intros Hl Hf. unfold get_books_by_title, bind at 1. rewrite (load_books_ok _ _ Hl).
  unfold bind, lift. cbn [py_iter obind]. rewrite filter_field_filter by exact Hf.
  unfold search_result. destruct (filter _ bs); reflexivity.
Qed.

(** C7. Over loaded records whose author (title) is a [str], the search
    by author (title) answers exactly the records, in stored order, whose
    field contains the query ignoring case, and fails with 404 exactly
    when there is none; "HOBBIT" occurs in "The Hobbit" ignoring case. *)
Theorem get_books_by_field_spec (q : pystr) (w : world) (bs : list json) :
  fst (load_books w) = Ok (JArr bs) ->
  (Forall (str_field (py "author")) bs ->
     fst (get_books_by_author q w)
     = search_result (py "author") q (py "No books found for the given author") bs) /\
  (Forall (str_field (py "title")) bs ->
     fst (get_books_by_title q w)
     = search_result (py "title") q (py "No books found for the given title") bs) /\
  ci_contains (py "HOBBIT") (py "The Hobbit") = true.
Proof.
  intro Hl. split; [|split].
  - apply get_books_by_author_result; assumption.
  - apply get_books_by_title_result; assumption.
  - reflexivity.
Qed.

Lemma field_matches_empty_query (f : pystr) (bs : list json) :
  Forall (str_field f) bs -> filter (field_matches f []) bs = bs.
Proof.
  induction 1 as [|b bs [s Hs] _ IH]; [reflexivity|].
  simpl. unfold field_matches at 1. rewrite Hs. unfold ci_contains.
  replace (str_contains (str_lower []) (str_lower s)) with true
    by (destruct (str_lower s); reflexivity).
  rewrite IH. reflexivity.
Qed.

Lemma search_result_empty_query (f d : pystr) (bs : list json) :
  Forall (str_field f) bs -> bs <> [] -> search_result f [] d bs = Ok (JArr bs).
Proof.
  intros Hf Hne. unfold search_result. rewrite field_matches_empty_query by exact Hf.
  destruct bs; [congruence|reflexivity].
Qed.

(** C10. With the empty query, both searches answer the whole non-empty
    collection; so their 404 answer needs an empty collection or a
    non-empty query. *)
Theorem empty_query_matches_all (w : world) (bs : list json) :
  fst (load_books w) = Ok (JArr bs) ->
  (bs <> [] -> Forall (str_field (py "author")) bs ->
     fst (get_books_by_author [] w) = Ok (JArr bs)) /\
  (bs <> [] -> Forall (str_field (py "title")) bs ->
     fst (get_books_by_title [] w) = Ok (JArr bs)) /\
  (forall q d, Forall (str_field (py "author")) bs ->
     fst (get_books_by_author q w) = Raise (HTTPException 404 d) -> bs = [] \/ q <> []) /\
  (forall q d, Forall (str_field (py "title")) bs ->
     fst (get_books_by_title q w) = Raise (HTTPException 404 d) -> bs = [] \/ q <> []).
Proof.
  intro Hl. repeat split.
  - intros Hne Hf. rewrite (get_books_by_author_result [] w bs) by assumption.
    apply search_result_empty_query; assumption.
  - intros Hne Hf. rewrite (get_books_by_title_result [] w bs) by assumption.
    apply search_result_empty_query; assumption.
  - intros q d Hf H. destruct bs as [|b bs']; [left; reflexivity|right]. intros ->.
    rewrite (get_books_by_author_result [] w (b :: bs')) in H by assumption.
    rewrite search_result_empty_query in H by (assumption || discriminate).
    discriminate.
  - intros q d Hf H. destruct bs as [|b bs']; [left; reflexivity|right]. intros ->.
    rewrite (get_books_by_title_result [] w (b :: bs')) in H by assumption.
    rewrite search_result_empty_query in H by (assumption || discriminate).
    discriminate.
Qed.

(** ** C9: toggling a record without [is_read] *)

(** C9. When the loop of PATCH /books/{isbn}/toggle-read stops at a record
    with no [is_read] key (as the first revision of the service stored
    them), the handler raises [KeyError('is_read')], an unhandled error,
    after reading the Store and without writing it. *)
Theorem toggle_read_status_missing_key (i : pystr) (w : world) (bs : list json)
    (index : nat) (book : json) :
  fst (load_books w) = Ok (JArr bs) ->
  find_isbn bs i 0 = Ok (Some (index, book)) ->
  py_getitem book (py "is_read") = Raise (KeyError (JStr (py "is_read"))) ->
  toggle_read_status i w = (Raise (KeyError (JStr (py "is_read"))), log_event EvOpenRead w).
Proof.
  intros Hl Hfind Hkey. unfold toggle_read_status, bind at 1. rewrite (load_books_ok _ _ Hl).
  unfold bind at 1, lift. cbn [py_iter obind]. rewrite Hfind.
  unfold bind. rewrite Hkey. reflexivity.
Qed.

(** ** C4: the record built from the upstream answer *)

Lemma join_items_strs (names : list pystr) : join_items (map JStr names) = Ok names.
Proof. induction names as [|n ns IH]; [reflexivity|]. simpl. rewrite IH. reflexivity. Qed.

(** C4 (as the code has it). On a 200 answer whose [items] has a first item
    with a [volumeInfo] dict, the result is built from that first item only:
    [title] and [description] are the item's own or the defaults, [isbn] is
    the input, [is_read] is false, and [author] is the [", "]-join of the
    listed authors when the [authors] key is present (so [""] for an empty
    list) and ["Unknown"] only when the key is absent. *)
Theorem fetch_google_book_first_item (net : upstream) (i : pystr) (w : world)
    (resp : http_response) (data item : json) (items : list json)
    (vi : list (pystr * json)) (authors : option (list pystr)) :
  net (google_url i) = Some resp ->
  status_code resp = 200 ->
  json_body resp = Some data ->
  py_getitem data (py "items") = Ok (JArr (item :: items)) ->
  py_getitem item (py "volumeInfo") = Ok (JObj vi) ->
  dict_lookup vi (py "authors") = option_map (fun names => JArr (map JStr names)) authors ->
  fst (fetch_google_book net i w)
  = Ok (JObj [(py "title", field_or vi (py "title") (JStr (py "Unknown")));
              (py "author", JStr (author_of authors));
              (py "isbn", JStr i);
              (py "description",
                 field_or vi (py "description") (JStr (py "No description available")));
              (py "is_read", JBool false)]).
Proof.
  intros Hnet Hst Hbody Hitems Hvi Hauth.
  unfold fetch_google_book. rewrite Hnet, Hst, Hbody. cbn [Z.eqb fst].
  destruct data as [| | | | |kvs]; try discriminate Hitems.
  unfold book_from_data. rewrite Hitems.
  assert (E : dict_lookup kvs (py "items") = Some (JArr (item :: items))).
  { unfold py_getitem in Hitems. destruct (dict_lookup kvs _); congruence. }
  unfold py_contains. rewrite E.
  cbn [obind py_len py_first]. rewrite Hvi.
  replace (0 <? Z.of_nat (List.length (item :: items))) with true by (symmetry; apply Z.ltb_lt; simpl; lia).
  cbn [obind py_dict_get]. rewrite Hauth. unfold field_or.
  destruct authors as [names|]; cbn [option_map py_join py_iter obind].
  - rewrite join_items_strs. reflexivity.
  - reflexivity.
Qed.

(** C4 (counterexample). An upstream [volumeInfo] with title "Dune" and an
    empty [authors] array gives the author [""], not ["Unknown"]. *)
Lemma fetch_google_book_empty_authors :
  fst (fetch_google_book
         (upstream_ok (volumes [(py "title", JStr (py "Dune")); (py "authors", JArr [])]))
         (py "999") (mk_world None []))
  = Ok (JObj [(py "title", JStr (py "Dune")); (py "author", JStr []);
              (py "isbn", JStr (py "999"));
              (py "description", JStr (py "No description available"));
              (py "is_read", JBool false)])
  /\ [] <> py "Unknown".
Proof. split; [vm_compute; reflexivity | discriminate]. Qed.

(** ** C6: what [load_books] recovers from *)

(** C6 (failing input). A missing file and a decodable text that is not
    JSON are read as the empty collection; but a file whose bytes are not
    UTF-8, such as the single byte 0xFF, raises [UnicodeDecodeError], which
    [load_books] does not catch, so every endpoint that loads the Store
    fails with it. *)
Theorem load_books_non_utf8_raises :
  (forall w, books_file w = None -> fst (load_books w) = Ok (JArr [])) /\
  (forall w bytes text, books_file w = Some bytes -> utf8_decode bytes = Some text ->
     json_loads (translate_newlines text) = None -> fst (load_books w) = Ok (JArr [])) /\
  (forall net req, reads_store_first req = true ->
     fst (handle net req (mk_world (Some [Byte.xff]) [])) = Raise UnicodeDecodeError).
Proof.
  split; [|split].
  - intros w H. unfold load_books. rewrite H. reflexivity.
  - intros w bytes text Hf Hd Hj. unfold load_books. rewrite Hf, Hd, Hj. reflexivity.
  - intros net req H. destruct req; try discriminate H; reflexivity.
Qed.

(** ** C1: update and the uniqueness of isbns *)

(** C1 (failing input). From a Store holding [book_a] (isbn "1") and
    [book_b] (isbn "2"), PUT /books/1 with a record whose isbn is "2"
    succeeds and saves a collection in which two records have isbn "2". *)
Theorem update_book_duplicates_isbn :
  let w := store_world [model_dump book_a; model_dump book_b] in
  fst (load_books w) = Ok (JArr [model_dump book_a; model_dump book_b]) /\
  fst (update_book (py "1") book_a2 w) = Ok (model_dump book_a2) /\
  books_file (snd (update_book (py "1") book_a2 w))
    = stored (JArr [model_dump book_a2; model_dump book_b]) /\
  fst ((_ <- update_book (py "1") book_a2 ;; load_books) w)
    = Ok (JArr [model_dump book_a2; model_dump book_b]) /\
  isbn book_a2 = isbn book_b.
Proof. vm_compute. repeat split; reflexivity. Qed.

(** ** C5: saving then loading *)

(** C5 (as the code has it). Saving a collection whose values are well formed
    ([json_wf]: no string holds a high surrogate directly followed by a low
    one, number lexemes as [json.dump] writes them) and then loading it gives
    back the same collection. *)
Theorem save_then_load (bs : list json) (w : world) :
  json_wf (JArr bs) = true ->
  fst ((_ <- save_books (JArr bs) ;; load_books) w) = Ok (JArr bs).
Proof.
  intro H. destruct (save_books_stored _ w H) as (w' & E & Hf).
  unfold bind. rewrite E, (load_books_stored _ _ Hf H). reflexivity.
Qed.

(** C5 (counterexample). A title holding the surrogates U+D83D and U+DE00 as
    two code points is written as two [\u] escapes, which [json.load] joins
    into the single code point U+1F600: the loaded collection differs. *)
Lemma save_then_load_joins_pair :
  fst ((_ <- save_books (JArr [model_dump pair_book]) ;; load_books) (mk_world None []))
    = Ok (JArr [model_dump joined_book])
  /\ fst ((_ <- save_books (JArr [model_dump pair_book]) ;; load_books) (mk_world None []))
    <> Ok (JArr [model_dump pair_book]).
Proof. vm_compute. split; [reflexivity | discriminate]. Qed.

(** ** C8: toggling twice *)



(** ** Further properties of the handlers *)

(** X1. When the upstream answers with a status other than 200, the lookup
    raises an HTTPException with that status and "Failed to fetch book
    details"; when it answers 200 with an object that has no [items] key or
    an empty [items] list, it raises 404 "Book not found in external API".
    Either way the only I/O is the one HTTP request. *)
Theorem fetch_google_book_errors (net : upstream) (i : pystr) (w : world) (resp : http_response) :
  net (google_url i) = Some resp ->
  (status_code resp <> 200 ->
     fetch_google_book net i w
     = (Raise (HTTPException (status_code resp) (py "Failed to fetch book details")),
        log_event (EvHttpGet (google_url i)) w))
  /\ (forall kvs, status_code resp = 200 -> json_body resp = Some (JObj kvs) ->
        dict_lookup kvs (py "items") = None \/ dict_lookup kvs (py "items") = Some (JArr []) ->
        fetch_google_book net i w
        = (Raise (HTTPException 404 (py "Book not found in external API")),
           log_event (EvHttpGet (google_url i)) w)).
Proof.
  intro Hn. unfold fetch_google_book. rewrite Hn. split.
  - intro Hs. destruct (Z.eqb_spec (status_code resp) 200); [contradiction|]. reflexivity.
  - intros kvs Hs Hb Hi. rewrite Hs, Hb. change (200 =? 200) with true. cbv beta iota zeta.
    f_equal. unfold book_from_data. cbn [py_contains py_getitem obind].
    destruct Hi as [Hi|Hi]; rewrite Hi; reflexivity.
Qed.

(** X2. GET /books/{isbn} answers the first loaded record whose isbn
    equals the argument, and 404 "Book not found" when there is none. *)
Theorem get_book_first_match (i : pystr) (w : world) (bs : list json) :
  fst (load_books w) = Ok (JArr bs) -> Forall has_isbn_key bs ->
  get_book i w = (match find (isbn_matches i) bs with
                  | Some b => Ok b
                  | None => Raise book_not_found
                  end, log_event EvOpenRead w).
Proof.
  intros Hl Hall. destruct (find_isbn_find i bs 0 Hall) as (o & E & Ef).
  unfold get_book, bind at 1. rewrite (load_books_ok _ _ Hl).
  unfold bind, lift. cbn [py_iter obind]. rewrite E, <- Ef.
  destruct o as [[n b]|]; reflexivity.
Qed.

(** X3. When no loaded record has the isbn, update, delete and toggle-read
    all raise 404 "Book not found" after reading the Store, without writing it. *)
Theorem missing_isbn_not_found (i : pystr) (u : Book) (w : world) (bs : list json) :
  fst (load_books w) = Ok (JArr bs) -> Forall has_isbn_key bs -> ~ Exists (isbn_is i) bs ->
  update_book i u w = (Raise book_not_found, log_event EvOpenRead w)
  /\ delete_book i w = (Raise book_not_found, log_event EvOpenRead w)
  /\ toggle_read_status i w = (Raise book_not_found, log_event EvOpenRead w).
Proof.
  intros Hl Hall Hn. pose proof (find_isbn_none i bs 0 Hall Hn) as E.
  unfold update_book, delete_book, toggle_read_status.
  split; [|split]; unfold bind at 1; rewrite (load_books_ok _ _ Hl);
    unfold bind, lift; cbn [py_iter obind]; rewrite E; reflexivity.
Qed.


(** X5. DELETE /books/{isbn} removes exactly the record the loop stops at,
    the first with that isbn, and keeps the others in order. *)
Theorem delete_book_removes (i : pystr) (w : world) (bs : list json) (n : nat) (b : json) :
  books_file w = stored (JArr bs) -> json_wf (JArr bs) = true ->
  find_isbn bs i 0 = Ok (Some (n, b)) ->
  fst (delete_book i w) = Ok (JObj [(py "message", JStr (py "Book deleted successfully"))])
  /\ fst (load_books (snd (delete_book i w))) = Ok (JArr (firstn n bs ++ skipn (S n) bs)).
Proof.
  intros Hf Hwf Hfind.
  destruct (find_isbn_split i bs 0 n b Hfind) as (l1 & l2 & x & -> & _ & -> & _ & _).
  destruct (firstn_skipn_at l1 l2 b) as [E1 E2]. cbn [Nat.add]. rewrite E1, E2.
  assert (Hwf' : json_wf (JArr (l1 ++ l2)) = true) by (apply (wf_remove _ _ b); assumption).
  destruct (save_books_stored _ (log_event EvOpenRead w) Hwf') as (w' & Es & Hw').
  assert (Hrun : delete_book i w
                 = (Ok (JObj [(py "message", JStr (py "Book deleted successfully"))]), w')).
  { unfold delete_book, bind at 1. rewrite (load_books_stored _ _ Hf Hwf).
    unfold bind, lift, ret. cbn [py_iter obind]. rewrite Hfind. cbn [Nat.add py_remove_at].
    rewrite E1, E2, Es. reflexivity. }
  rewrite Hrun. split; [reflexivity|]. cbn [snd]. rewrite (load_books_stored _ _ Hw' Hwf').
  reflexivity.
Qed.



(** X8. [save_books] never fails on a value whose numbers are [json.dump]
    lexemes, whatever code points its strings hold (lone surrogates
    included): it writes only ASCII bytes, and no carriage return. *)
Theorem save_books_writes_ascii (v : json) (w : world) :
  nums_ok v = true ->
  exists bytes, save_books v w = (Ok tt, {| books_file := Some bytes; io_log := io_log w ++ [EvWrite bytes] |})
    /\ Forall (fun b => bz b < 128 /\ bz b <> 13) bytes.
Proof.
  intro H. pose proof (iterencode_text_nums v 0%nat H) as Ht. fold (json_dump v) in Ht.
  exists (map byte_of (json_dump v)). split.
  - unfold save_books. rewrite (utf8_encode_ascii _ Ht). reflexivity.
  - unfold ascii_text in Ht. rewrite forallb_forall in Ht. apply Forall_forall.
    intros b Hb. apply in_map_iff in Hb as [c [<- Hc]]. destruct (text_char_lt c (Ht c Hc)) as [H1 H2].
    rewrite bz_byte_of by lia. lia.
Qed.

(** X9. A search by author (by title) raises the error of the first record
    whose field cannot be read (a missing key is a KeyError), whatever the
    query, even when earlier records match. *)
Theorem search_fails_on_missing_field (q : pystr) (w : world) (l1 l2 : list json) (b : json) (e : exn) :
  fst (load_books w) = Ok (JArr (l1 ++ b :: l2)) ->
  (Forall (str_field (py "author")) l1 -> py_getitem b (py "author") = Raise e ->
     get_books_by_author q w = (Raise e, log_event EvOpenRead w))
  /\ (Forall (str_field (py "title")) l1 -> py_getitem b (py "title") = Raise e ->
     get_books_by_title q w = (Raise e, log_event EvOpenRead w)).
Proof.
  intro Hl.
  assert (Key : forall f, Forall (str_field f) l1 -> py_getitem b f = Raise e ->
                  filter_field f q (l1 ++ b :: l2) = Raise e).
  { intros f Hall Hb. clear Hl. induction Hall as [|c l1 [s Hs] _ IH]; cbn [app filter_field].
    - rewrite Hb. reflexivity.
    - rewrite Hs. cbn [obind py_lower]. rewrite IH. reflexivity. }
  split; intros Hall Hb;
    [unfold get_books_by_author | unfold get_books_by_title];
    unfold bind at 1; rewrite (load_books_ok _ _ Hl); unfold bind, lift; cbn [py_iter obind];
    rewrite (Key _ Hall Hb); reflexivity.
Qed.

(** X10. The lookup, the listing, the lookup by isbn and both searches
    never change [books.json], whether they succeed or raise. *)
Theorem read_only_requests_keep_store (net : upstream) (req : request) (w : world) :
  read_only req = true -> books_file (snd (handle net req w)) = books_file w.
Proof.
  intro H. revert w. change (keeps_store (handle net req)).
  destruct req; try discriminate H; cbn [handle];
    unfold search_book, get_books, get_book, get_books_by_author, get_books_by_title; keeps.
Qed.

End lowercase.

(** ** Instances at concrete inputs *)

Lemma search_and_add_book_atomic_witness :
  search_and_add_book (fun _ => Some (mk_response 503 None)) (py "1")
    (store_world [model_dump book_a])
  = (Raise (HTTPException 503 (py "Failed to fetch book details")),
     log_event (EvHttpGet (google_url (py "1"))) (store_world [model_dump book_a])) /\
  search_and_add_book (upstream_ok (volumes [(py "title", JStr (py "Dune"))])) (py "1")
    (store_world [model_dump book_a])
  = (Raise duplicate_isbn,
     log_event EvOpenRead
       (log_event (EvHttpGet (google_url (py "1"))) (store_world [model_dump book_a]))).
Proof.
  split.
  - apply (proj1 (search_and_add_book_atomic (fun _ => Some (mk_response 503 None)) (py "1")
                    (store_world [model_dump book_a]))).
    reflexivity.
  - apply (proj2 (search_and_add_book_atomic
                    (upstream_ok (volumes [(py "title", JStr (py "Dune"))])) (py "1")
                    (store_world [model_dump book_a]))
             (dune_record (py "1")) [model_dump book_a]).
    + vm_compute. reflexivity.
    + vm_compute. reflexivity.
    + forall_fields.
    + apply Exists_cons_hd. reflexivity.
Defined.

Lemma add_book_duplicate_iff_witness :
  fst (add_book book_a (store_world [model_dump book_a])) = Raise duplicate_isbn /\
  add_book book_a (store_world [model_dump book_b])
  = (_ <- save_books (JArr ([model_dump book_b] ++ [model_dump book_a])) ;; ret (model_dump book_a))
      (log_event EvOpenRead (store_world [model_dump book_b])).
Proof.
  split.
  - apply (add_book_duplicate_iff book_a (store_world [model_dump book_a]) [model_dump book_a]).
    + vm_compute. reflexivity.
    + forall_fields.
    + apply Exists_cons_hd. reflexivity.
  - apply (add_book_duplicate_iff book_a (store_world [model_dump book_b]) [model_dump book_b]).
    + vm_compute. reflexivity.
    + forall_fields.
    + intro H. inversion H as [x l Hx|x l Hx]; [discriminate Hx | inversion Hx].
Defined.

Lemma fetch_google_book_first_item_witness :
  fst (fetch_google_book (upstream_ok (volumes [(py "title", JStr (py "Dune"))])) (py "999")
         (mk_world None []))
  = Ok (JObj [(py "title", field_or [(py "title", JStr (py "Dune"))] (py "title") (JStr (py "Unknown")));
              (py "author", JStr (author_of None));
              (py "isbn", JStr (py "999"));
              (py "description",
                 field_or [(py "title", JStr (py "Dune"))] (py "description")
                   (JStr (py "No description available")));
              (py "is_read", JBool false)]).
Proof.
  apply (fetch_google_book_first_item (upstream_ok (volumes [(py "title", JStr (py "Dune"))]))
           (py "999") (mk_world None [])
           (mk_response 200 (Some (volumes [(py "title", JStr (py "Dune"))])))
           (volumes [(py "title", JStr (py "Dune"))])
           (JObj [(py "volumeInfo", JObj [(py "title", JStr (py "Dune"))])]) []
           [(py "title", JStr (py "Dune"))] None); vm_compute; reflexivity.
Defined.

Lemma load_books_non_utf8_raises_witness :
  fst (load_books (mk_world None [])) = Ok (JArr []) /\
  fst (load_books (mk_world (Some [Byte.x7b]) [])) = Ok (JArr []) /\
  fst (handle identity_lower (fun _ => None) GetBooks (mk_world (Some [Byte.xff]) [])) = Raise UnicodeDecodeError.
Proof.
  destruct (load_books_non_utf8_raises identity_lower) as [H1 [H2 H3]]. split; [|split].
  - apply H1. reflexivity.
  - apply (H2 _ [Byte.x7b] [123]); vm_compute; reflexivity.
  - apply H3. reflexivity.
Defined.

Lemma get_books_by_field_spec_witness :
  fst (get_books_by_title identity_lower (py "HOBBIT") (store_world [model_dump book_a; model_dump book_b]))
  = search_result identity_lower (py "title") (py "HOBBIT") (py "No books found for the given title")
      [model_dump book_a; model_dump book_b] /\
  fst (get_books_by_author identity_lower (py "tolkien") (store_world [model_dump book_a; model_dump book_b]))
  = search_result identity_lower (py "author") (py "tolkien") (py "No books found for the given author")
      [model_dump book_a; model_dump book_b].
Proof.
  split.
  - apply (get_books_by_field_spec identity_lower (py "HOBBIT") (store_world [model_dump book_a; model_dump book_b])
             [model_dump book_a; model_dump book_b]).
    + vm_compute. reflexivity.
    + forall_fields.
  - apply (get_books_by_field_spec identity_lower (py "tolkien") (store_world [model_dump book_a; model_dump book_b])
             [model_dump book_a; model_dump book_b]).
    + vm_compute. reflexivity.
    + forall_fields.
Defined.

Lemma empty_query_matches_all_witness :
  fst (get_books_by_author identity_lower [] (store_world [model_dump book_a; model_dump book_b]))
  = Ok (JArr [model_dump book_a; model_dump book_b]) /\
  fst (get_books_by_title identity_lower [] (store_world [model_dump book_a; model_dump book_b]))
  = Ok (JArr [model_dump book_a; model_dump book_b]).
Proof.
  destruct (empty_query_matches_all identity_lower (store_world [model_dump book_a; model_dump book_b])
              [model_dump book_a; model_dump book_b]) as [H1 [H2 _]].
  - vm_compute. reflexivity.
  - split; [apply H1 | apply H2]; (discriminate || forall_fields).
Defined.

Lemma toggle_read_status_missing_key_witness :
  toggle_read_status (py "1") (store_world [first_revision_record])
  = (Raise (KeyError (JStr (py "is_read"))), log_event EvOpenRead (store_world [first_revision_record])).
Proof.
  apply (toggle_read_status_missing_key (py "1") (store_world [first_revision_record])
           [first_revision_record] 0 first_revision_record); vm_compute; reflexivity.
Defined.

Lemma save_then_load_witness :
  json_wf (JArr [model_dump book_a; model_dump book_b]) = true
  /\ fst ((_ <- save_books (JArr [model_dump book_a; model_dump book_b]) ;; load_books)
            (mk_world None []))
     = Ok (JArr [model_dump book_a; model_dump book_b]).
Proof. split; [vm_compute; reflexivity | apply save_then_load; vm_compute; reflexivity]. Defined.


Lemma fetch_google_book_errors_witness :
  fetch_google_book (fun _ => Some (mk_response 200 (Some (JObj [])))) (py "1") (mk_world None [])
  = (Raise (HTTPException 404 (py "Book not found in external API")),
     log_event (EvHttpGet (google_url (py "1"))) (mk_world None [])).
Proof.
  apply (fetch_google_book_errors (fun _ => Some (mk_response 200 (Some (JObj [])))) (py "1")
           (mk_world None []) (mk_response 200 (Some (JObj []))) eq_refl) with (kvs := []).
  - reflexivity.
  - reflexivity.
  - left. reflexivity.
Defined.

Lemma get_book_first_match_witness :
  get_book (py "2") (store_world [model_dump book_a; model_dump book_b])
  = (Ok (model_dump book_b), log_event EvOpenRead (store_world [model_dump book_a; model_dump book_b])).
Proof.
  apply (get_book_first_match (py "2") (store_world [model_dump book_a; model_dump book_b])
           [model_dump book_a; model_dump book_b]);
    [vm_compute; reflexivity | forall_fields].
Defined.

Lemma missing_isbn_not_found_witness :
  delete_book (py "5") (store_world [model_dump book_a])
  = (Raise book_not_found, log_event EvOpenRead (store_world [model_dump book_a])).
Proof.
  apply (missing_isbn_not_found (py "5") book_b (store_world [model_dump book_a]) [model_dump book_a]).
  - vm_compute. reflexivity.
  - forall_fields.
  - rewrite <- existsb_isbn_Exists. vm_compute. discriminate.
Defined.


Lemma delete_book_removes_witness :
  fst (load_books (snd (delete_book (py "1") (store_world [model_dump book_a; model_dump book_b]))))
  = Ok (JArr [model_dump book_b]).
Proof.
  apply (delete_book_removes (py "1") (store_world [model_dump book_a; model_dump book_b])
           [model_dump book_a; model_dump book_b] 0%nat (model_dump book_a));
    vm_compute; reflexivity.
Defined.



Lemma save_books_writes_ascii_witness :
  nums_ok (JArr [model_dump lone_surrogate_book]) = true
  /\ exists bytes, save_books (JArr [model_dump lone_surrogate_book]) (mk_world None [])
       = (Ok tt, {| books_file := Some bytes; io_log := [] ++ [EvWrite bytes] |})
     /\ Forall (fun b => bz b < 128 /\ bz b <> 13) bytes.
Proof.
  split; [reflexivity|].
  apply (save_books_writes_ascii (JArr [model_dump lone_surrogate_book]) (mk_world None [])).
  reflexivity.
Defined.

Lemma search_fails_on_missing_field_witness :
  get_books_by_author identity_lower (py "herbert") (store_world [model_dump book_a; no_author_record])
  = (Raise (KeyError (JStr (py "author"))),
     log_event EvOpenRead (store_world [model_dump book_a; no_author_record])).
Proof.
  apply (search_fails_on_missing_field identity_lower (py "herbert") (store_world [model_dump book_a; no_author_record])
           [model_dump book_a] [] no_author_record (KeyError (JStr (py "author")))).
  - vm_compute. reflexivity.
  - forall_fields.
  - vm_compute. reflexivity.
Defined.

Lemma read_only_requests_keep_store_witness :
  read_only (GetBook (py "1")) = true
  /\ books_file (snd (handle identity_lower (fun _ => None) (GetBook (py "1")) (store_world [model_dump book_a])))
     = books_file (store_world [model_dump book_a]).
Proof. split; [reflexivity | apply (read_only_requests_keep_store identity_lower); reflexivity]. Defined.
